(** * AIND-Recognizer: model selectors and recognizer

    A shallow embedding of [my_model_selectors.py] and [my_recognizer.py].

    The Python code is effectful: it allocates [GaussianHMM] objects, refits
    them in place, and relies on bare [except:] clauses.  It is embedded in a
    small state-and-exception monad over a [world] made of an object heap and
    the log of the calls made to the HMM library.  The HMM library itself
    (expectation-maximisation and the forward algorithm of [hmmlearn]) and
    [np.log] are parameters of the development.

    Python floats are values of the extended rationals with a not-a-number
    value, which contain the doubles: the order, the infinities, NaN and
    truthiness are those of IEEE doubles.  Arithmetic on doubles rounds and
    overflows; its operations are not computed here but are parameters of the
    development, like [np.mean] and [statistics.mean], and only what the
    properties need is assumed of them.

    Not modelled: the [warnings.filterwarnings] calls and the messages
    printed under [verbose], which do not influence any returned value. *)

From Stdlib Require Import ZArith QArith Lia Lqa.
From stdpp Require Import base list strings.

Local Open Scope Z_scope.

(** ** Python floats *)

Inductive pyfloat : Type :=
| NaN
| NegInf
| Finite (q : Q)
| PosInf.

Definition Qltb (a b : Q) : bool :=
  (Qnum a * QDen b <? Qnum b * QDen a)%Z.

(** [a < b] on floats: false as soon as one side is NaN. *)
Definition float_lt (a b : pyfloat) : bool :=
  match a, b with
  | NaN, _ | _, NaN => false
  | _, NegInf => false
  | NegInf, _ => true
  | PosInf, _ => false
  | Finite _, PosInf => true
  | Finite x, Finite y => Qltb x y
  end.

(** [a > b] is [b < a], as in Python. *)
Definition float_gt (a b : pyfloat) : bool := float_lt b a.

Definition float_eq (a b : pyfloat) : bool :=
  match a, b with
  | NegInf, NegInf | PosInf, PosInf => true
  | Finite x, Finite y => Qeq_bool x y
  | _, _ => false
  end.

Definition float_le (a b : pyfloat) : bool := float_lt a b || float_eq a b.

(** [bool(x)]: a float is falsy exactly when it is zero; the infinities and
    NaN are truthy. *)
Definition truthy (a : pyfloat) : bool :=
  match a with
  | Finite q => negb (Qeq_bool q 0)
  | _ => true
  end.

(** ** Exceptions and outcomes *)

Inductive exn : Type :=
| AttributeError      (* a method or attribute the object does not have *)
| ValueError
| KeyError
| IndexError
| TypeError
| UnboundLocalError
| OverflowError       (* an [int] too large for a double *)
| StatisticsError
| LibraryError        (* raised from inside the HMM library *)
| SystemError.        (* a reference to no object: never constructed *)

Inductive outcome (A : Type) : Type :=
| Ok (a : A)
| Raise (e : exn).
Arguments Ok {A} a.
Arguments Raise {A} e.

(** ** Data *)

(** A feature frame and a sequence of frames. *)
Abbreviation frame := (list Q).
Abbreviation sequence := (list (list Q)).

(** Array-like data as the code meets it.  A numpy array has a [shape]
    attribute, the tuple of its dimensions, also when it holds no row; a
    plain Python list of frames has none.  [rows] are the frames. *)
Record arraylike : Type := ArrayLike {
  shape_attr : option (list nat);
  rows : list frame
}.

(** A plain list of frames. *)
Definition py_list (l : list frame) : arraylike := ArrayLike None l.

(** The pair [(X, lengths)] that the HMM library consumes. *)
Abbreviation Xlengths := (arraylike * list nat)%type.

(** [N, features = X.shape]: reading the attribute raises on an object
    without it, the unpacking raises unless the tuple has two components. *)
Definition shape (X : arraylike) : outcome (Z * Z) :=
  match shape_attr X with
  | None => Raise AttributeError
  | Some [N; features] => Ok (Z.of_nat N, Z.of_nat features)
  | Some _ => Raise ValueError
  end.

(** [range(lo, hi)]. *)
Definition py_range (lo hi : Z) : list Z := seqZ lo (hi - lo).

(** Python dictionaries, in insertion order. *)
Abbreviation dict V := (list (string * V)).

Fixpoint dict_get {V} (d : dict V) (k : string) : option V :=
  match d with
  | [] => None
  | (k', v) :: d' => if String.eqb k k' then Some v else dict_get d' k
  end.

(** [d[k] = v]: an existing key keeps its position. *)
Fixpoint dict_set {V} (d : dict V) (k : string) (v : V) : dict V :=
  match d with
  | [] => [(k, v)]
  | (k', v') :: d' =>
      if String.eqb k k' then (k', v) :: d' else (k', v') :: dict_set d' k v
  end.

Definition dict_keys {V} (d : dict V) : list string := map fst d.

(** ** The world: object heap and library call log *)

Abbreviation loc := nat.

(** What the code is run against: the HMM library ([hmmlearn]'s
    [GaussianHMM]), the default fold count of [KFold()], and the arithmetic
    of doubles with the numerical functions of [numpy] and [statistics]. *)
Class HmmLibrary : Type := {
  (** Fitted parameters of a Gaussian HMM. *)
  params : Type;
  (** [hmm_em n seed old d]: expectation-maximisation for an [n]-state
      diagonal-covariance model seeded with [seed], started from an object
      whose current parameters are [old], on data [d]; [None] when the
      library raises. *)
  hmm_em : Z -> Z -> option params -> Xlengths -> option params;
  (** [hmm_loglik n p d]: log-likelihood of [d] under parameters [p]; [None]
      when the library raises. *)
  hmm_loglik : Z -> params -> Xlengths -> option pyfloat;
  (** [np.log] of an integer: at 0 numpy warns and yields minus infinity,
      it does not raise. *)
  np_log : Z -> pyfloat;
  (** The default number of folds of [KFold()]. *)
  n_splits : nat;
  (** [a + b], [a - b] and [a * b] on doubles, rounded as the machine
      rounds them. *)
  float_add : pyfloat -> pyfloat -> pyfloat;
  float_sub : pyfloat -> pyfloat -> pyfloat;
  float_mul : pyfloat -> pyfloat -> pyfloat;
  (** The conversion of an [int] operand to a double, which rounds and, for
      an integer beyond the range of doubles, raises. *)
  float_of_int : Z -> outcome pyfloat;
  (** [np.mean] of a list of floats. *)
  np_mean : list pyfloat -> pyfloat;
  (** [statistics.mean] of a list of floats. *)
  statistics_mean : list pyfloat -> outcome pyfloat;
  (** A difference with NaN is NaN. *)
  float_sub_NaN : forall a, float_sub a NaN = NaN;
  (** [np.mean] of no value is NaN (numpy emits a [RuntimeWarning], it does
      not raise). *)
  np_mean_nil : np_mean [] = NaN;
  (** [statistics.mean] raises on empty data. *)
  statistics_mean_nil : statistics_mean [] = Raise StatisticsError
}.

Section Library.

Context {L : HmmLibrary}.

(** The state of a [GaussianHMM] object: its hyper-parameters and, once
    fitted, its parameters. *)
Record hmm : Type := Hmm {
  n_components : Z;
  seed : Z;
  fitted : option params
}.

(** A call to the library, on the object at [l]. *)
Inductive event : Type :=
| CallFit (l : loc) (d : Xlengths)
| CallScore (l : loc) (d : Xlengths).

(** The heap maps a reference (an allocation index) to an object; objects
    are never freed.  [calls] is the log of library calls, oldest first. *)
Record world : Type := World {
  heap : list hmm;
  calls : list event
}.

Definition log (e : event) (w : world) : world :=
  World (heap w) (calls w ++ [e]).

(** ** The monad *)

Definition M (A : Type) : Type := world -> outcome A * world.

Definition ret {A} (a : A) : M A := fun w => (Ok a, w).

Definition raise {A} (e : exn) : M A := fun w => (Raise e, w).

Definition bind {A B} (m : M A) (k : A -> M B) : M B :=
  fun w =>
    match m w with
    | (Ok a, w') => k a w'
    | (Raise e, w') => (Raise e, w')
    end.

(** [try: m  except: h] with a bare [except]. *)
Definition try_except {A} (m : M A) (h : M A) : M A :=
  fun w =>
    match m w with
    | (Ok a, w') => (Ok a, w')
    | (Raise _, w') => h w'
    end.

Definition lift {A} (o : outcome A) : M A := fun w => (o, w).

Notation "'do' x <- m ; k" := (bind m (fun x => k))
  (at level 10, x name, m at level 100, k at level 200, only parsing).
Notation "'do' ' pat <- m ; k" :=
  (bind m (fun x => match x with pat => k end))
  (at level 10, pat pattern, m at level 100, k at level 200, only parsing).

(** A [for] loop threading the loop variables [s]. *)
Fixpoint for_each {A S} (l : list A) (body : A -> S -> M S) (s : S) : M S :=
  match l with
  | [] => ret s
  | x :: l' => do s' <- body x s; for_each l' body s'
  end.

(** ** The HMM object interface *)

(** [GaussianHMM(n_components=n, ..., random_state=rs)]: a new, unfitted
    object. *)
Definition new_GaussianHMM (n rs : Z) : M loc :=
  fun w => (Ok (length (heap w)), World (heap w ++ [Hmm n rs None]) (calls w)).

(** [model.fit(X, lengths)]: refits the object in place.  When the library
    raises the object is left as it was; the code never uses an object again
    after its [fit] raised. *)
Definition fit (model : option loc) (d : Xlengths) : M unit :=
  match model with
  | None => raise AttributeError
  | Some l => fun w =>
      match heap w !! l with
      | None => (Raise SystemError, w)
      | Some o =>
          match hmm_em (n_components o) (seed o) (fitted o) d with
          | Some p =>
              (Ok tt,
               World (<[l := Hmm (n_components o) (seed o) (Some p)]> (heap w))
                     (calls w ++ [CallFit l d]))
          | None => (Raise LibraryError, log (CallFit l d) w)
          end
      end
  end.

(** [model.score(X, lengths)]. *)
Definition score (model : option loc) (d : Xlengths) : M pyfloat :=
  match model with
  | None => raise AttributeError
  | Some l => fun w =>
      match heap w !! l with
      | None => (Raise SystemError, w)
      | Some o =>
          match fitted o with
          | None => (Raise LibraryError, log (CallScore l d) w)
          | Some p =>
              match hmm_loglik (n_components o) p d with
              | Some v => (Ok v, log (CallScore l d) w)
              | None => (Raise LibraryError, log (CallScore l d) w)
              end
          end
      end
  end.

(** ** [ModelSelector] *)

Record ModelSelector : Type := {
  words : dict (list sequence);
  hwords : dict Xlengths;
  sequences : list sequence;
  X : arraylike;
  lengths : list nat;
  this_word : string;
  n_constant : Z;
  min_n_components : Z;
  max_n_components : Z;
  random_state : Z;
  verbose : bool
}.

(** [ModelSelector.__init__]; a missing word raises [KeyError]. *)
Definition ModelSelector_init (all_word_sequences : dict (list sequence))
    (all_word_Xlengths : dict Xlengths) (word : string)
    (n_const min_n max_n rs : Z) (verb : bool) : outcome ModelSelector :=
  match dict_get all_word_sequences word with
  | None => Raise KeyError
  | Some seqs =>
      match dict_get all_word_Xlengths word with
      | None => Raise KeyError
      | Some (x, lens) =>
          Ok {| words := all_word_sequences; hwords := all_word_Xlengths;
                sequences := seqs; X := x; lengths := lens; this_word := word;
                n_constant := n_const; min_n_components := min_n;
                max_n_components := max_n; random_state := rs;
                verbose := verb |}
      end
  end.

(** [base_model]: messages printed under [verbose] are not modelled. *)
Definition base_model (self : ModelSelector) (num_states : Z) : M (option loc) :=
  try_except
    (do hmm_model <- new_GaussianHMM num_states (random_state self);
     do _ <- fit (Some hmm_model) (X self, lengths self);
     ret (Some hmm_model))
    (ret None).

(** Reading a local variable that may not have been assigned yet. *)
Definition read_var {A} (v : option A) : M A :=
  match v with
  | Some a => ret a
  | None => raise UnboundLocalError
  end.

(** ** [SelectorConstant] *)

Definition SelectorConstant_select (self : ModelSelector) : M (option loc) :=
  let best_num_components := n_constant self in
  base_model self best_num_components.

(** ** [SelectorBIC] *)

(** [-2 * logL + (n ** 2 + 2 * features * n - 1) * np.log(N)]: the integer
    [-2] is a double as it stands; the parameter count is computed on
    integers and converted when it is multiplied by the double
    [np.log(N)]. *)
Definition bic_formula (logL : pyfloat) (n features N : Z) : outcome pyfloat :=
  match float_of_int (n ^ 2 + 2 * features * n - 1) with
  | Raise e => Raise e
  | Ok p =>
      Ok (float_add (float_mul (Finite (inject_Z (-2))) logL)
                    (float_mul p (np_log N)))
  end.

(** The [try] block of one iteration, with its [except] clause.  It yields
    the local variables [model] and [s] as they stand after the block: an
    exception raised before [model] is assigned leaves [model] as it was
    (unassigned in the first iteration), one raised later leaves the new
    value in place. *)
Definition bic_try (self : ModelSelector) (n : Z) (model : option (option loc))
    : M (option (option loc) * pyfloat) :=
  try_except
    (do ' (N, features) <- lift (shape (X self));
     do m <- base_model self n;
     try_except
       (do logL <- score m (X self, lengths self);
        do s <- lift (bic_formula logL n features N);
        ret (Some m, s))
       (ret (Some m, PosInf)))
    (ret (model, PosInf)).

(** The loop variables are [(b_s, b_model, model)]. *)
Definition bic_body (self : ModelSelector) (n : Z)
    (vars : pyfloat * option loc * option (option loc))
    : M (pyfloat * option loc * option (option loc)) :=
  let '(b_s, b_model, model) := vars in
  do ' (model, s) <- bic_try self n model;
  if float_lt s b_s
  then do m <- read_var model; ret (s, m, model)
  else ret (b_s, b_model, model).

Definition SelectorBIC_select (self : ModelSelector) : M (option loc) :=
  do ' (_, b_model, _) <-
    for_each (py_range (min_n_components self) (max_n_components self + 1))
             (bic_body self) (PosInf, None, None);
  ret b_model.

(** ** [SelectorDIC] *)

(** The inner loop over [self.words]: scores of the model on the data of
    every other word. *)
Definition dic_other (self : ModelSelector) (model : option loc) (word : string)
    (tmp_scores : list pyfloat) : M (list pyfloat) :=
  if negb (String.eqb word (this_word self))
  then
    match dict_get (hwords self) word with
    | None => raise KeyError
    | Some d => do v <- score model d; ret (tmp_scores ++ [v])
    end
  else ret tmp_scores.

Definition dic_try (self : ModelSelector) (n : Z) (model : option (option loc))
    : M (option (option loc) * pyfloat) :=
  try_except
    (do m <- base_model self n;
     try_except
       (do logL <- score m (X self, lengths self);
        do tmp_scores <- for_each (dict_keys (words self)) (dic_other self m) [];
        ret (Some m, float_sub logL (np_mean tmp_scores)))
       (ret (Some m, NegInf)))
    (ret (model, NegInf)).

Definition dic_body (self : ModelSelector) (n : Z)
    (vars : pyfloat * option loc * option (option loc))
    : M (pyfloat * option loc * option (option loc)) :=
  let '(b_s, b_model, model) := vars in
  do ' (model, s) <- dic_try self n model;
  if float_gt s b_s
  then do m <- read_var model; ret (s, m, model)
  else ret (b_s, b_model, model).

Definition SelectorDIC_select (self : ModelSelector) : M (option loc) :=
  do ' (_, b_model, _) <-
    for_each (py_range (min_n_components self) (max_n_components self + 1))
             (dic_body self) (NegInf, None, None);
  ret b_model.

(** ** [SelectorCV] *)

(** [KFold().split]: consecutive test blocks, the first [n mod k] of them one
    longer; the training indices are all the others, in order. *)
Definition fold_sizes (n_samples k : nat) : list nat :=
  map (fun i => (n_samples / k + (if i <? n_samples mod k then 1 else 0))%nat)
      (seq 0 k).

Fixpoint kfold_folds (n_samples : nat) (sizes : list nat) (current : nat)
    : list (list nat * list nat) :=
  match sizes with
  | [] => []
  | sz :: rest =>
      let test_index := seq current sz in
      let train_index :=
        seq 0 current ++ seq (current + sz) (n_samples - (current + sz)) in
      (train_index, test_index) :: kfold_folds n_samples rest (current + sz)%nat
  end.

Definition KFold_split (n_samples : nat) : outcome (list (list nat * list nat)) :=
  if (n_splits <=? 1)%nat then Raise ValueError
  else if (n_samples <? n_splits)%nat then Raise ValueError
  else Ok (kfold_folds n_samples (fold_sizes n_samples n_splits) 0).

(** Modelled from the spec: [asl_utils.combine_sequences], which is not among
    the sources.  Given a list of sequence indices and the word's sequence
    list it returns the concatenated frames, a plain list, and the lengths of
    just those sequences; an index out of range raises. *)
Definition combine_sequences (split_index_list : list nat)
    (seqs : list sequence) : outcome Xlengths :=
  match mapM (fun idx => seqs !! idx) split_index_list with
  | None => Raise IndexError
  | Some sequences_fold =>
      Ok (py_list (concat sequences_fold), map length sequences_fold)
  end.

(** The body of the loop over the folds; [scores] is the loop variable. *)
Definition cv_fold (self : ModelSelector) (model : option loc)
    (fold : list nat * list nat) (scores : list pyfloat) : M (list pyfloat) :=
  let '(train_index, test_index) := fold in
  do ' (X_train, len_train) <- lift (combine_sequences train_index (sequences self));
  do ' (X_test, len_test) <- lift (combine_sequences test_index (sequences self));
  do _ <- fit model (X_train, len_train);
  do tmp_s <- score model (X_test, len_test);
  ret (scores ++ [tmp_s]).

(** Everything the [try] block does for candidate [n] before comparing:
    the model it refits and the mean of the fold scores. *)
Definition cv_candidate (self : ModelSelector) (n : Z) : M (option loc * pyfloat) :=
  do model <- base_model self n;
  do folds <- lift (KFold_split (length (sequences self)));
  do scores <- for_each folds (cv_fold self model) [];
  do s <- lift (statistics_mean scores);
  ret (model, s).

(** The loop variables are [(b_s, b_model)]. *)
Definition cv_body (self : ModelSelector) (n : Z) (vars : pyfloat * option loc)
    : M (pyfloat * option loc) :=
  let '(b_s, b_model) := vars in
  try_except
    (do ' (model, s) <- cv_candidate self n;
     if float_gt s b_s then ret (s, model) else ret (b_s, b_model))
    (ret (b_s, b_model)).

Definition SelectorCV_select (self : ModelSelector) : M (option loc) :=
  let b_s := NegInf in
  do b_model <- base_model self 3;
  if (length (sequences self) <? 3)%nat then ret b_model
  else
    do ' (_, b_model) <-
      for_each (py_range (min_n_components self) (max_n_components self + 1))
               (cv_body self) (b_s, b_model);
    ret b_model.

(** ** The recognizer *)

Definition calculate_score (model : option loc) (X : arraylike)
    (length : list nat) : M pyfloat :=
  try_except (score model (X, length)) (ret NegInf).

(** [[(word, calculate_score(model, X, length)) for word, model in
    models.items()]]. *)
Definition score_all (models : dict (option loc)) (X : arraylike)
    (length : list nat) : M (list (string * pyfloat)) :=
  for_each models
    (fun '(word, model) acc =>
       do s <- calculate_score model X length; ret (acc ++ [(word, s)]))
    [].

(** [{word: score for word, score in ... if score}]. *)
Definition keep_truthy (pairs : list (string * pyfloat)) : dict pyfloat :=
  fold_left
    (fun probs '(word, score) =>
       if truthy score then dict_set probs word score else probs)
    pairs [].

(** [val > maxval] on the values of [probs.get]; [None] does not compare. *)
Definition key_gt (a b : option pyfloat) : outcome bool :=
  match a, b with
  | Some x, Some y => Ok (float_gt x y)
  | _, _ => Raise TypeError
  end.

(** [max(iterable, key=key)]: the first item is kept until a strictly greater
    one is met; an empty iterable raises [ValueError]. *)
Fixpoint max_loop (key : string -> option pyfloat) (items : list string)
    (maxitem : string) (maxval : option pyfloat) : outcome string :=
  match items with
  | [] => Ok maxitem
  | item :: rest =>
      match key_gt (key item) maxval with
      | Raise e => Raise e
      | Ok true => max_loop key rest item (key item)
      | Ok false => max_loop key rest maxitem maxval
      end
  end.

Definition py_max (items : list string) (key : string -> option pyfloat)
    : outcome string :=
  match items with
  | [] => Raise ValueError
  | item :: rest => max_loop key rest item (key item)
  end.

(** The body of the loop over the test items; the loop variables are
    [(probabilities, guesses)]. *)
Definition recognize_item (models : dict (option loc)) (item : Xlengths)
    (vars : list (dict pyfloat) * list string)
    : M (list (dict pyfloat) * list string) :=
  let '(probabilities, guesses) := vars in
  let '(X, length) := item in
  do pairs <- score_all models X length;
  let probs := keep_truthy pairs in
  let probabilities := probabilities ++ [probs] in
  do guess <- lift (py_max (dict_keys probs) (dict_get probs));
  ret (probabilities, guesses ++ [guess]).

(** [recognize]; [test_set] is the list
    [test_set.get_all_Xlengths().values()]. *)
Definition recognize (models : dict (option loc)) (test_set : list Xlengths)
    : M (list (dict pyfloat) * list string) :=
  for_each test_set (recognize_item models) ([], []).

(** ** Derived notions used to state the properties *)

(** The word's own data, and the outcome of fitting an [n]-state model on
    it (what [base_model] does). *)
Definition own_data (self : ModelSelector) : Xlengths := (X self, lengths self).

Definition trained (self : ModelSelector) (n : Z) : option params :=
  hmm_em n (random_state self) None (own_data self).

(** The BIC score of candidate [n]: the value of the formula when [n] is
    trained and scored and the formula evaluates, plus infinity when
    anything raises. *)
Definition bic_score (self : ModelSelector) (n : Z) : pyfloat :=
  match shape (X self) with
  | Raise _ => PosInf
  | Ok (N, features) =>
      match trained self n with
      | None => PosInf
      | Some p =>
          match hmm_loglik n p (own_data self) with
          | None => PosInf
          | Some logL =>
              match bic_formula logL n features N with
              | Ok s => s
              | Raise _ => PosInf
              end
          end
      end
  end.

(** The scores that parameters [p] give to the data of the other words. *)
Fixpoint dic_others (self : ModelSelector) (n : Z) (p : params)
    (ws : list string) (tmp_scores : list pyfloat) : option (list pyfloat) :=
  match ws with
  | [] => Some tmp_scores
  | word :: rest =>
      if negb (String.eqb word (this_word self))
      then
        match dict_get (hwords self) word with
        | None => None
        | Some d =>
            match hmm_loglik n p d with
            | None => None
            | Some v => dic_others self n p rest (tmp_scores ++ [v])
            end
        end
      else dic_others self n p rest tmp_scores
  end.

(** The DIC score of candidate [n]: own log-likelihood minus the mean over
    the other words, minus infinity when anything fails. *)
Definition dic_score (self : ModelSelector) (n : Z) : pyfloat :=
  match trained self n with
  | None => NegInf
  | Some p =>
      match hmm_loglik n p (own_data self) with
      | None => NegInf
      | Some logL =>
          match dic_others self n p (dict_keys (words self)) [] with
          | None => NegInf
          | Some tmp_scores => float_sub logL (np_mean tmp_scores)
          end
      end
  end.

(** One step of a search that keeps the first candidate strictly better
    than all before it: the running pair is (winner, best score). *)
Definition keep_better (better : pyfloat -> pyfloat -> bool)
    (sc : Z -> pyfloat) (cur : option Z * pyfloat) (n : Z)
    : option Z * pyfloat :=
  if better (sc n) cur.2 then (Some n, sc n) else cur.

(** What [model.score] yields on heap [h]; [None] when it raises. *)
Definition score_value (h : list hmm) (model : option loc) (d : Xlengths)
    : option pyfloat :=
  match model with
  | None => None
  | Some l =>
      match h !! l with
      | None => None
      | Some o =>
          match fitted o with
          | None => None
          | Some p => hmm_loglik (n_components o) p d
          end
      end
  end.

(** What [calculate_score] yields on heap [h]. *)
Definition calc_value (h : list hmm) (d : Xlengths) (model : option loc)
    : pyfloat :=
  match score_value h model d with
  | Some v => v
  | None => NegInf
  end.

(** The ScoreRow that [recognize] builds for a test item in world [w]. *)
Definition item_row (models : dict (option loc)) (item : Xlengths) (w : world)
    : dict pyfloat :=
  match score_all models item.1 item.2 w with
  | (Ok pairs, _) => keep_truthy pairs
  | (Raise _, _) => []
  end.

(** [guess] is a word of the row [probs] whose score no entry exceeds; when
    that score is a number, it is at least every number of the row. *)
Definition best_in_row (probs : dict pyfloat) (guess : string) : Prop :=
  exists g, dict_get probs guess = Some g /\
    (forall word v, dict_get probs word = Some v -> float_gt v g = false) /\
    (g <> NaN ->
     forall word v, dict_get probs word = Some v -> v <> NaN ->
                    float_le v g = true).

(** The selected model [b_model] is the object fitted for the winning
    candidate [who] (none when nothing was selected). *)
Definition winner_at (self : ModelSelector) (h : list hmm) (who : option Z)
    (b_model : option loc) : Prop :=
  match who with
  | None => b_model = None
  | Some n =>
      exists l p, b_model = Some l /\ trained self n = Some p /\
        h !! l = Some (Hmm n (random_state self) (Some p))
  end.

(** What [base_model] returns in a world of heap [h]. *)
Definition fresh_model (self : ModelSelector) (n : Z) (h : list hmm)
    : option loc :=
  match trained self n with
  | Some _ => Some (length h)
  | None => None
  end.

(** The object a library call is made on. *)
Definition event_loc (e : event) : loc :=
  match e with
  | CallFit l _ | CallScore l _ => l
  end.

Definition about (l : loc) (e : event) : bool := Nat.eqb (event_loc e) l.

(** The library calls that the loop over the folds makes on the model [l]:
    one refit and one scoring per fold. *)
Definition cv_calls (self : ModelSelector) (l : loc)
    (folds : list (list nat * list nat)) : list event :=
  flat_map
    (fun fold =>
       match combine_sequences fold.1 (sequences self),
             combine_sequences fold.2 (sequences self) with
       | Ok d_train, Ok d_test => [CallFit l d_train; CallScore l d_test]
       | _, _ => []
       end)
    folds.

(** The model [l] was chosen by the loop over the folds: it is the object
    created for a candidate [n] of the range, the calls [cs] made on it are
    the initial fit on the word's own data followed by one refit and one
    scoring per fold, and its parameters in heap [h] are those of the refit
    on the training part of the last fold. *)
Definition refit_per_fold (self : ModelSelector) (h : list hmm)
    (cs : list event) (l : loc) : Prop :=
  exists n folds p train_index test_index d_train prev,
    min_n_components self <= n <= max_n_components self /\
    KFold_split (length (sequences self)) = Ok folds /\
    last folds = Some (train_index, test_index) /\
    combine_sequences train_index (sequences self) = Ok d_train /\
    hmm_em n (random_state self) prev d_train = Some p /\
    h !! l = Some (Hmm n (random_state self) (Some p)) /\
    List.filter (about l) cs = CallFit l (own_data self) :: cv_calls self l folds.

(** The loop over the folds on the parameters alone: the scores of the
    folds when every refit and scoring succeeds, [None] when anything raises.
    [cur] are the parameters the object holds before the fold. *)
Fixpoint cv_refit (self : ModelSelector) (n : Z)
    (folds : list (list nat * list nat)) (cur : option params)
    (scores : list pyfloat) : option (list pyfloat) :=
  match folds with
  | [] => Some scores
  | (train_index, test_index) :: rest =>
      match combine_sequences train_index (sequences self),
            combine_sequences test_index (sequences self) with
      | Ok d_train, Ok d_test =>
          match hmm_em n (random_state self) cur d_train with
          | None => None
          | Some p =>
              match hmm_loglik n p d_test with
              | None => None
              | Some v => cv_refit self n rest (Some p) (scores ++ [v])
              end
          end
      | _, _ => None
      end
  end.

(** The mean fold score of candidate [n]; [None] when its evaluation
    raises. *)
Definition cv_mean (self : ModelSelector) (n : Z) : option pyfloat :=
  match trained self n with
  | None => None
  | Some p =>
      match KFold_split (length (sequences self)) with
      | Raise _ => None
      | Ok folds =>
          match cv_refit self n folds (Some p) [] with
          | None => None
          | Some scores =>
              match statistics_mean scores with
              | Ok s => Some s
              | Raise _ => None
              end
          end
      end
  end.

(** A candidate that raises never replaces the running best, as a score of
    minus infinity would not. *)
Definition cv_score (self : ModelSelector) (n : Z) : pyfloat :=
  match cv_mean self n with
  | Some s => s
  | None => NegInf
  end.

(** The model kept by cross-validation: the initial one [b0] while no
    candidate has won, the fitted object of the winning candidate after. *)
Definition cv_winner_at (self : ModelSelector) (h : list hmm)
    (who : option Z) (b_model b0 : option loc) : Prop :=
  match who with
  | None => b_model = b0
  | Some n =>
      exists l p, b_model = Some l /\
        h !! l = Some (Hmm n (random_state self) (Some p))
  end.

End Library.

(** ** A small concrete library

    Used to run the code on concrete inputs.  Fitting succeeds on a positive
    state count and non-empty data and remembers the number of training
    frames; the log-likelihood of data is the first feature of its first
    frame minus the distance of the state count to 3, and scoring raises on
    data without a first feature.  Its arithmetic is exact arithmetic on
    rationals, a stand-in like the rest: it coincides with the arithmetic of
    doubles on the values that the runs below compute with, which are small
    integers, and the general properties do not depend on it. *)
Module Toy.

Definition em (n rs : Z) (old : option Z) (d : Xlengths) : option Z :=
  match rows d.1 with
  | [] => None
  | _ => if n <=? 0 then None else Some (Z.of_nat (length (rows d.1)))
  end.

Definition loglik (n : Z) (p : Z) (d : Xlengths) : option pyfloat :=
  match rows d.1 with
  | (q :: _) :: _ => Some (Finite (Qred (q - inject_Z (Z.abs (n - 3)))))
  | _ => None
  end.

Definition neg (a : pyfloat) : pyfloat :=
  match a with
  | NaN => NaN
  | NegInf => PosInf
  | Finite q => Finite (Qopp q)
  | PosInf => NegInf
  end.

Definition add (a b : pyfloat) : pyfloat :=
  match a, b with
  | NaN, _ | _, NaN => NaN
  | PosInf, NegInf | NegInf, PosInf => NaN
  | PosInf, _ | _, PosInf => PosInf
  | NegInf, _ | _, NegInf => NegInf
  | Finite x, Finite y => Finite (Qplus x y)
  end.

Definition sub (a b : pyfloat) : pyfloat := add a (neg b).

(** An infinity of sign [pos] times a finite factor compared to zero as [c]. *)
Definition inf_times (pos : bool) (c : comparison) : pyfloat :=
  match c with
  | Eq => NaN
  | Gt => if pos then PosInf else NegInf
  | Lt => if pos then NegInf else PosInf
  end.

Definition mul (a b : pyfloat) : pyfloat :=
  match a, b with
  | NaN, _ | _, NaN => NaN
  | Finite x, Finite y => Finite (Qmult x y)
  | PosInf, Finite y => inf_times true (Qcompare y 0)
  | NegInf, Finite y => inf_times false (Qcompare y 0)
  | Finite x, PosInf => inf_times true (Qcompare x 0)
  | Finite x, NegInf => inf_times false (Qcompare x 0)
  | PosInf, PosInf | NegInf, NegInf => PosInf
  | PosInf, NegInf | NegInf, PosInf => NegInf
  end.

Definition of_int (z : Z) : pyfloat := Finite (inject_Z z).

(** Division of a float by a positive count. *)
Definition div_count (a : pyfloat) (n : nat) : pyfloat :=
  match a with
  | Finite q => Finite (Qdiv q (inject_Z (Z.of_nat n)))
  | _ => a
  end.

Definition total (l : list pyfloat) : pyfloat := fold_left add l (Finite 0).

Definition mean (l : list pyfloat) : pyfloat :=
  match l with
  | [] => NaN
  | _ => div_count (total l) (length l)
  end.

Definition stat_mean (l : list pyfloat) : outcome pyfloat :=
  match l with
  | [] => Raise StatisticsError
  | _ => Ok (div_count (total l) (length l))
  end.

(** A stand-in for [np.log]: the number of binary digits after the first. *)
Definition log2 (N : Z) : pyfloat := of_int (Z.log2 N).

Definition sub_NaN (a : pyfloat) : sub a NaN = NaN :=
  match a with
  | NaN | NegInf | Finite _ | PosInf => eq_refl
  end.

Definition lib (folds : nat) : HmmLibrary :=
  {| params := Z; hmm_em := em; hmm_loglik := loglik; np_log := log2;
     n_splits := folds;
     float_add := add; float_sub := sub; float_mul := mul;
     float_of_int := fun z => Ok (of_int z);
     np_mean := mean; statistics_mean := stat_mean;
     float_sub_NaN := sub_NaN;
     np_mean_nil := eq_refl;
     statistics_mean_nil := eq_refl |}.

(** The library with three folds, the one most runs below use. *)
Definition lib3 : HmmLibrary := lib 3.

Definition empty (folds : nat) : @world (lib folds) := World [] [].

(** The frames of some sequences stacked in an array of two columns. *)
Definition stacked (seqs : list sequence) : arraylike :=
  ArrayLike (Some [length (concat seqs); 2%nat]) (concat seqs).

(** A selector for [word] built the way the data loader builds its input:
    the concatenated data of a word are its sequences stacked, with their
    lengths. *)
Definition selector (vocab : dict (list sequence)) (word : string)
    (seqs : list sequence) (n_const lo hi : Z) : ModelSelector :=
  {| words := vocab;
     hwords := map (fun ws => (ws.1, (stacked ws.2, map length ws.2))) vocab;
     sequences := seqs;
     X := stacked seqs;
     lengths := map length seqs;
     this_word := word;
     n_constant := n_const;
     min_n_components := lo;
     max_n_components := hi;
     random_state := 14;
     verbose := false |}.

Definition fr (q : Q) : list Q := [q; 1%Q].
Definition seqA : list (list Q) := [fr 5; fr 2].
Definition seqB : list (list Q) := [fr (-4)].

(** Word "A" with three sequences in a two-word vocabulary. *)
Definition sel_A : ModelSelector :=
  selector [("A"%string, [seqA; seqB; seqA]); ("B"%string, [seqB])]
           "A" [seqA; seqB; seqA] 3 2 5.

(** Word "A" alone in the vocabulary. *)
Definition sel_single : ModelSelector :=
  selector [("A"%string, [seqA; seqB; seqA])] "A" [seqA; seqB; seqA] 3 2 5.

(** Word "B" with two sequences, searched between 4 and 10 states. *)
Definition sel_few : ModelSelector :=
  selector [("A"%string, [seqA; seqB; seqA]); ("B"%string, [seqB; seqA])]
           "B" [seqB; seqA] 3 4 10.

(** Word "A" with the constant strategy asked for 15 states. *)
Definition sel_const15 : ModelSelector :=
  selector [("A"%string, [seqA; seqB; seqA]); ("B"%string, [seqB])]
           "A" [seqA; seqB; seqA] 15 2 10.

(** Word "A" in a two-word vocabulary whose concatenated data lack "B". *)
Definition sel_missing : ModelSelector :=
  {| words := [("A"%string, [seqA; seqB; seqA]); ("B"%string, [seqB])];
     hwords := [("A"%string, (stacked [seqA; seqB; seqA], [2; 1; 2]%nat))];
     sequences := [seqA; seqB; seqA];
     X := stacked [seqA; seqB; seqA];
     lengths := [2; 1; 2]%nat;
     this_word := "A";
     n_constant := 3;
     min_n_components := 2;
     max_n_components := 5;
     random_state := 14;
     verbose := false |}.

(** Word "A" with its frames in a plain list instead of an array. *)
Definition sel_list : ModelSelector :=
  {| words := [("A"%string, [seqA; seqB; seqA])];
     hwords := [("A"%string, (py_list (concat [seqA; seqB; seqA]),
                              [2; 1; 2]%nat))];
     sequences := [seqA; seqB; seqA];
     X := py_list (concat [seqA; seqB; seqA]);
     lengths := [2; 1; 2]%nat;
     this_word := "A";
     n_constant := 3;
     min_n_components := 2;
     max_n_components := 5;
     random_state := 14;
     verbose := false |}.

(** A heap with a fitted 3-state model and a fitted 5-state model. *)
Definition two_models : @world (lib 3) :=
  World [@Hmm (lib 3) 3 14 (Some 5); @Hmm (lib 3) 5 14 (Some 5)] [].

End Toy.

(** * Properties *)

(** ** Order on floats and dictionaries *)

Lemma Qltb_lt (a b : Q) : Qltb a b = true <-> (a < b)%Q.
Proof. unfold Qltb, Qlt. apply Z.ltb_lt. Qed.

Lemma Qltb_ge (a b : Q) : Qltb a b = false <-> (b <= a)%Q.
Proof. unfold Qltb, Qle. apply Z.ltb_ge. Qed.

Lemma Qeq_bool_false (a b : Q) : Qeq_bool a b = false <-> ~ (a == b)%Q.
Proof.
  split.
  - intros H E. apply Qeq_bool_iff in E. congruence.
  - intros H. destruct (Qeq_bool a b) eqn:E; [|done].
    apply Qeq_bool_iff in E. done.
Qed.

Ltac float_order :=
  unfold float_gt, float_le in *;
  repeat match goal with x : pyfloat |- _ => destruct x end;
  simpl in *; try congruence;
  repeat match goal with
  | H : (_ || _) = false |- _ => apply orb_false_iff in H; destruct H
  | H : Qltb _ _ = true |- _ => apply Qltb_lt in H
  | H : Qltb _ _ = false |- _ => apply Qltb_ge in H
  | H : Qeq_bool _ _ = true |- _ => apply Qeq_bool_iff in H
  | H : Qeq_bool _ _ = false |- _ => apply Qeq_bool_false in H
  end;
  try (apply orb_false_iff; split);
  try (apply Qltb_lt); try (apply Qltb_ge); try (apply Qeq_bool_false);
  try lra.

Lemma float_gt_irrefl g : float_gt g g = false.
Proof. float_order. Qed.

Lemma float_not_gt_le (v g : pyfloat) :
  float_gt v g = false -> v <> NaN -> g <> NaN -> float_le v g = true.
Proof.
  unfold float_gt, float_le.
  destruct v as [| |x|], g as [| |y|]; simpl; try done.
  intros Hge%Qltb_ge _ _.
  destruct (Qltb x y) eqn:Hlt; [done|]. apply Qltb_ge in Hlt. simpl.
  apply Qeq_bool_iff. by apply Qle_antisym.
Qed.

Lemma float_gt_raise v g x :
  float_gt v g = false -> float_gt x g = true -> float_gt v x = false.
Proof. intros. float_order. Qed.

(** dictionaries *)
Lemma dict_get_set_eq {V} (d : dict V) k v : dict_get (dict_set d k v) k = Some v.
Proof.
  induction d as [|[k' v'] d IH]; simpl.
  - by rewrite String.eqb_refl.
  - destruct (String.eqb k k') eqn:E; simpl; rewrite E; [done|apply IH].
Qed.

Lemma dict_get_set_ne {V} (d : dict V) k k' v :
  k <> k' -> dict_get (dict_set d k v) k' = dict_get d k'.
Proof.
  intros Hne. induction d as [|[k0 v0] d IH]; simpl.
  - apply String.eqb_neq in Hne. rewrite String.eqb_sym in Hne. by rewrite Hne.
  - destruct (String.eqb k k0) eqn:E; simpl.
    + apply String.eqb_eq in E. subst k0.
      assert (String.eqb k' k = false) as ->; [|done].
      apply String.eqb_neq. congruence.
    + destruct (String.eqb k' k0); [done|apply IH].
Qed.

Lemma dict_get_keys {V} (d : dict V) k v :
  dict_get d k = Some v -> k ∈ dict_keys d.
Proof.
  induction d as [|[k' v'] d IH]; simpl; [done|].
  destruct (String.eqb k k') eqn:E.
  - apply String.eqb_eq in E. subst. intros _. left.
  - intros H. right. by apply IH.
Qed.

Lemma dict_keys_get {V} (d : dict V) k :
  k ∈ dict_keys d -> is_Some (dict_get d k).
Proof.
  induction d as [|[k' v'] d IH]; simpl.
  - by intros ?%elem_of_nil.
  - intros [->|H]%elem_of_cons.
    + rewrite String.eqb_refl. by eexists.
    + destruct (String.eqb k k'); [by eexists|by apply IH].
Qed.

Section Facts.

Context {L : HmmLibrary}.

(** ** [base_model] *)

Lemma lookup_fresh (h : list hmm) (o : hmm) : (h ++ [o]) !! length h = Some o.
Proof. by apply list_lookup_middle. Qed.

Lemma insert_fresh (h : list hmm) (o o' : hmm) :
  <[length h := o']> (h ++ [o]) = h ++ [o'].
Proof.
  replace (length h) with (length h + 0)%nat by lia.
  by rewrite insert_app_r.
Qed.

Lemma base_model_run (self : ModelSelector) (n : Z) (w : world) :
  base_model self n w =
    (Ok (match trained self n with
         | Some _ => Some (length (heap w))
         | None => None
         end),
     World (heap w ++ [Hmm n (random_state self) (trained self n)])
           (calls w ++ [CallFit (length (heap w)) (own_data self)])).
Proof.
  unfold base_model, try_except, bind, new_GaussianHMM, fit, trained, own_data.
  simpl. rewrite lookup_fresh. simpl.
  destruct (hmm_em n (random_state self) None (X self, lengths self)) as [p|];
    simpl; [|done].
  by rewrite insert_fresh.
Qed.

(** C9: [base_model] never raises: it returns either a reference to a new
    model fitted on the word's own data with the requested state count, or
    [None] when the library's fit raised. *)
Theorem base_model_never_raises (self : ModelSelector) (n : Z) (w : world) :
  exists (r : option loc) (w' : world),
    base_model self n w = (Ok r, w') /\
    match r with
    | None =>
        hmm_em n (random_state self) None (X self, lengths self) = None
    | Some l =>
        exists p : params,
          hmm_em n (random_state self) None (X self, lengths self) = Some p /\
          heap w' !! l = Some (Hmm n (random_state self) (Some p))
    end.
Proof.
  rewrite base_model_run. unfold trained, own_data.
  destruct (hmm_em n (random_state self) None (X self, lengths self)) as [p|] eqn:E.
  - eexists _, _. split; [reflexivity|]. exists p. split; [done|].
    simpl. apply lookup_fresh.
  - eexists _, _. split; [reflexivity|]. done.
Qed.

(** C5: with fewer than three training sequences [SelectorCV.select] is
    [base_model 3] and nothing else: one model is created, the only library
    call is its fit on the word's own data, and the result is the reference
    to that model, or [None] when the fit raised. *)
Theorem SelectorCV_few_sequences (self : ModelSelector) (w : world) :
  (length (sequences self) < 3)%nat ->
  SelectorCV_select self w = base_model self 3 w /\
  SelectorCV_select self w =
    (Ok (match hmm_em 3 (random_state self) None (own_data self) with
         | Some _ => Some (length (heap w))
         | None => None
         end),
     World (heap w ++ [Hmm 3 (random_state self)
                           (hmm_em 3 (random_state self) None (own_data self))])
           (calls w ++ [CallFit (length (heap w)) (own_data self)])).
Proof.
  intros H. apply Nat.ltb_lt in H.
  assert (SelectorCV_select self w = base_model self 3 w) as Heq.
  { unfold SelectorCV_select, bind, ret.
    destruct (base_model self 3 w) as [[r|e] w'] eqn:E; [|done].
    by rewrite H. }
  split; [exact Heq|]. rewrite Heq. apply base_model_run.
Qed.

(** ** The recognizer *)

Lemma max_loop_spec (key : string -> option pyfloat) (items : list string)
    (maxitem : string) (g : pyfloat) :
  key maxitem = Some g ->
  (forall x, x ∈ items -> is_Some (key x)) ->
  exists guess g',
    max_loop key items maxitem (Some g) = Ok guess /\
    key guess = Some g' /\
    (forall v, float_gt v g = false -> float_gt v g' = false) /\
    (forall x v, x ∈ items -> key x = Some v -> float_gt v g' = false).
Proof.
  revert maxitem g. induction items as [|x rest IH]; intros maxitem g Hmax Hkeys.
  - exists maxitem, g. simpl. repeat split; [done|done|].
    by intros x v ?%elem_of_nil.
  - destruct (Hkeys x) as [vx Hx]; [left|].
    simpl. rewrite Hx. simpl.
    destruct (float_gt vx g) eqn:Hgt.
    + destruct (IH x vx Hx) as (guess & g' & Hrun & Hkey & Hmono & Hrest).
      { intros y Hy. apply Hkeys. by right. }
      exists guess, g'. repeat split; [done|done| |].
      * intros v Hv. apply Hmono. by eapply float_gt_raise.
      * intros y v [->|Hy]%elem_of_cons Hyv.
        -- assert (v = vx) as -> by congruence.
           apply Hmono, float_gt_irrefl.
        -- by eapply Hrest.
    + destruct (IH maxitem g Hmax) as (guess & g' & Hrun & Hkey & Hmono & Hrest).
      { intros y Hy. apply Hkeys. by right. }
      exists guess, g'. repeat split; [done|done|done|].
      intros y v [->|Hy]%elem_of_cons Hyv.
      * assert (v = vx) as -> by congruence. by apply Hmono.
      * by eapply Hrest.
Qed.


Lemma py_max_row (probs : dict pyfloat) :
  probs <> [] ->
  exists guess,
    py_max (dict_keys probs) (dict_get probs) = Ok guess /\
    best_in_row probs guess.
Proof.
  intros Hne. destruct probs as [|[k0 v0] rest] eqn:Ep; [done|].
  rewrite <- Ep. assert (dict_keys probs = k0 :: dict_keys rest) as Hk by by subst.
  rewrite Hk. simpl.
  assert (dict_get probs k0 = Some v0) as H0.
  { subst probs. simpl. by rewrite String.eqb_refl. }
  rewrite H0.
  destruct (max_loop_spec (dict_get probs) (dict_keys rest) k0 v0 H0)
    as (guess & g' & Hrun & Hkey & Hmono & Hrest).
  { intros x Hx. apply dict_keys_get. rewrite Hk. by right. }
  exists guess. split; [done|]. exists g'. split; [done|].
  assert (forall word v, dict_get probs word = Some v -> float_gt v g' = false)
    as Hall.
  { intros word v Hv.
    pose proof (dict_get_keys _ _ _ Hv) as Hin. rewrite Hk in Hin.
    apply elem_of_cons in Hin as [->|Hin].
    - assert (v = v0) as -> by congruence. apply Hmono, float_gt_irrefl.
    - by eapply Hrest. }
  split; [exact Hall|].
  intros Hg word v Hv Hvn. apply float_not_gt_le; [by eapply Hall|done|done].
Qed.

Example py_max_example :
  let probs := [("A"%string, Finite (-241 # 2)); ("B"%string, Finite (-476 # 5));
                ("C"%string, Finite (-200))] in
  py_max (dict_keys probs) (dict_get probs) = Ok "B"%string.
Proof. reflexivity. Qed.

Lemma py_max_empty (key : string -> option pyfloat) :
  py_max [] key = Raise ValueError.
Proof. done. Qed.

Lemma score_run (model : option loc) (d : Xlengths) (w : world) :
  exists w', heap w' = heap w /\
    match score_value (heap w) model d with
    | Some v => score model d w = (Ok v, w')
    | None => exists e, score model d w = (Raise e, w')
    end.
Proof.
  unfold score, score_value. destruct model as [l|].
  - destruct (heap w !! l) as [o|].
    + destruct (fitted o) as [p|].
      * destruct (hmm_loglik (n_components o) p d); eexists; (split; [|eauto]); done.
      * eexists; (split; [|eauto]); done.
    + exists w. eauto.
  - exists w. unfold raise. eauto.
Qed.

Lemma calculate_score_run (model : option loc) (X : arraylike)
    (len : list nat) (w : world) :
  exists w', heap w' = heap w /\
    calculate_score model X len w = (Ok (calc_value (heap w) (X, len) model), w').
Proof.
  unfold calculate_score, try_except, calc_value.
  destruct (score_run model (X, len) w) as (w' & Hh & Hrun).
  destruct (score_value (heap w) model (X, len)) as [v|].
  - rewrite Hrun. eauto.
  - destruct Hrun as [e ->]. unfold ret. eauto.
Qed.

Lemma score_all_loop (models : dict (option loc)) (X : arraylike)
    (len : list nat) (acc : list (string * pyfloat)) (w : world) :
  exists w', heap w' = heap w /\
    for_each models
      (fun '(word, model) acc =>
         bind (calculate_score model X len) (fun s => ret (acc ++ [(word, s)])))
      acc w
    = (Ok (acc ++ map (fun wm => (wm.1, calc_value (heap w) (X, len) wm.2)) models), w').
Proof.
  revert acc w. induction models as [|[word model] models IH]; intros acc w.
  - exists w. simpl. by rewrite app_nil_r.
  - simpl. unfold bind at 1 2.
    destruct (calculate_score_run model X len w) as (w1 & Hh1 & ->).
    unfold ret at 1.
    destruct (IH (acc ++ [(word, calc_value (heap w) (X, len) model)]) w1)
      as (w' & Hh & ->).
    exists w'. split; [congruence|]. rewrite Hh1. by rewrite <- app_assoc.
Qed.

Lemma score_all_run (models : dict (option loc)) (X : arraylike)
    (len : list nat) (w : world) :
  exists w', heap w' = heap w /\
    score_all models X len w
    = (Ok (map (fun wm => (wm.1, calc_value (heap w) (X, len) wm.2)) models), w').
Proof. apply (score_all_loop models X len [] w). Qed.

Lemma item_row_heap (models : dict (option loc)) (item : Xlengths) (w : world) :
  item_row models item w =
    keep_truthy (map (fun wm => (wm.1, calc_value (heap w) item wm.2)) models).
Proof.
  unfold item_row. destruct item as [X len]. simpl.
  by destruct (score_all_run models X len w) as (w' & _ & ->).
Qed.

Lemma item_row_same_heap (models : dict (option loc)) (item : Xlengths)
    (w w' : world) :
  heap w' = heap w -> item_row models item w' = item_row models item w.
Proof. intros H. rewrite !item_row_heap. by rewrite H. Qed.

Lemma recognize_item_run (models : dict (option loc)) (item : Xlengths)
    (probabilities : list (dict pyfloat)) (guesses : list string) (w : world) :
  exists w', heap w' = heap w /\
    match item_row models item w with
    | [] => recognize_item models item (probabilities, guesses) w
            = (Raise ValueError, w')
    | _ :: _ =>
        exists guess,
          recognize_item models item (probabilities, guesses) w
          = (Ok (probabilities ++ [item_row models item w], guesses ++ [guess]), w')
          /\ best_in_row (item_row models item w) guess
    end.
Proof.
  rewrite item_row_heap. unfold recognize_item. destruct item as [X len].
  unfold bind.
  destruct (score_all_run models X len w) as (w' & Hh & ->).
  exists w'. split; [done|].
  set (row := keep_truthy _).
  destruct row as [|kv row'] eqn:Erow.
  - done.
  - destruct (py_max_row row) as (guess & Hmax & Hbest); [by rewrite Erow|].
    exists guess. rewrite <- Erow. unfold lift. rewrite Hmax. done.
Qed.

Lemma recognize_loop (models : dict (option loc)) (test_set : list Xlengths)
    (probabilities : list (dict pyfloat)) (guesses : list string) (w : world) :
  let rows := map (fun item => item_row models item w) test_set in
  (Forall (fun row => row <> []) rows ->
   exists gs w',
     for_each test_set (recognize_item models) (probabilities, guesses) w
     = (Ok (probabilities ++ rows, guesses ++ gs), w') /\
     Forall2 best_in_row rows gs) /\
  (Exists (fun row => row = []) rows ->
   exists w',
     for_each test_set (recognize_item models) (probabilities, guesses) w
     = (Raise ValueError, w')).
Proof.
  revert probabilities guesses w.
  induction test_set as [|item rest IH]; intros probabilities guesses w;
    cbn [for_each map].
  - split.
    + intros _. exists [], w. rewrite !app_nil_r. split; [done|constructor].
    + intros H. inversion H.
  - destruct (recognize_item_run models item probabilities guesses w)
      as (w1 & Hh & Hrun).
    assert (map (fun i => item_row models i w) rest
            = map (fun i => item_row models i w1) rest) as Hrows.
    { apply map_ext. intros i. symmetry. by apply item_row_same_heap. }
    rewrite Hrows.
    split.
    + intros [Hne Hrest]%Forall_cons.
      destruct (item_row models item w) as [|kv row'] eqn:Erow; [done|].
      destruct Hrun as (guess & Hrun & Hbest).
      destruct (IH (probabilities ++ [kv :: row']) (guesses ++ [guess]) w1)
        as [IHok _].
      destruct (IHok Hrest) as (gs & w' & Hloop & Hall).
      exists (guess :: gs), w'. unfold bind. rewrite Hrun. cbv beta iota.
      split; [|by constructor].
      rewrite <- !app_assoc in Hloop. exact Hloop.
    + intros Hex.
      destruct (item_row models item w) as [|kv row'] eqn:Erow.
      * exists w1. unfold bind. by rewrite Hrun.
      * destruct Hrun as (guess & Hrun & Hbest).
        apply Exists_cons in Hex as [?|Hex]; [done|].
        destruct (IH (probabilities ++ [kv :: row']) (guesses ++ [guess]) w1)
          as [_ IHraise].
        destruct (IHraise Hex) as (w' & Hloop).
        exists w'. unfold bind. rewrite Hrun. cbv beta iota. exact Hloop.
Qed.

(** C8: when every test item has a non-empty ScoreRow, [recognize] returns
    the rows and one guess per item, each guess being a word of its row whose
    log-likelihood no entry of the row exceeds; when some item has an empty
    ScoreRow, [recognize] raises [ValueError]. *)
Theorem recognize_guess (models : dict (option loc)) (test_set : list Xlengths)
    (w : world) :
  let rows := map (fun item => item_row models item w) test_set in
  (Forall (fun row => row <> []) rows ->
   exists guesses w',
     recognize models test_set w = (Ok (rows, guesses), w') /\
     Forall2 best_in_row rows guesses) /\
  (Exists (fun row => row = []) rows ->
   exists w', recognize models test_set w = (Raise ValueError, w')).
Proof.
  intros rows. unfold recognize.
  exact (recognize_loop models test_set [] [] w).
Qed.


(** ** Failed scores stay in the row *)

Lemma keep_truthy_skip (pairs : list (string * pyfloat)) (acc : dict pyfloat)
    (word : string) :
  word ∉ map fst pairs ->
  dict_get
    (fold_left
       (fun probs '(word, score) =>
          if truthy score then dict_set probs word score else probs)
       pairs acc) word
  = dict_get acc word.
Proof.
  revert acc. induction pairs as [|[k s] pairs IH]; intros acc Hnot; [done|].
  simpl in *. apply not_elem_of_cons in Hnot as [Hne Hnot].
  rewrite IH by done.
  destruct (truthy s); [|done]. by apply dict_get_set_ne.
Qed.

Lemma keep_truthy_get (pairs : list (string * pyfloat)) (word : string)
    (v : pyfloat) :
  NoDup (map fst pairs) -> (word, v) ∈ pairs -> truthy v = true ->
  dict_get (keep_truthy pairs) word = Some v.
Proof.
  unfold keep_truthy. generalize (@nil (string * pyfloat)) as acc.
  induction pairs as [|[k s] pairs IH]; intros acc Hnd Hin Ht.
  - by apply elem_of_nil in Hin.
  - simpl in *. apply NoDup_cons in Hnd as [Hk Hnd].
    apply elem_of_cons in Hin as [[= <- <-]|Hin].
    + rewrite Ht. rewrite keep_truthy_skip by done. apply dict_get_set_eq.
    + by apply IH.
Qed.

Lemma score_raises_value (model : option loc) (d : Xlengths) (w : world) :
  (exists e w1, score model d w = (Raise e, w1)) ->
  score_value (heap w) model d = None.
Proof.
  intros (e & w1 & Hraise).
  destruct (score_run model d w) as (w' & _ & Hrun).
  destruct (score_value (heap w) model d); [congruence|done].
Qed.

(** C1 (amended): when scoring a word's model raises for a test item, the
    word is kept in that item's ScoreRow with the value minus infinity, and
    the guess is a word of the whole row (these entries included) whose score
    no entry exceeds. *)
Theorem failed_score_recorded (models : dict (option loc)) (item : Xlengths)
    (w : world) (word : string) (model : option loc)
    (probabilities : list (dict pyfloat)) (guesses : list string) :
  NoDup (dict_keys models) ->
  (word, model) ∈ models ->
  (exists e w1, score model item w = (Raise e, w1)) ->
  exists guess w',
    recognize_item models item (probabilities, guesses) w
    = (Ok (probabilities ++ [item_row models item w], guesses ++ [guess]), w') /\
    dict_get (item_row models item w) word = Some NegInf /\
    best_in_row (item_row models item w) guess.
Proof.
  intros Hnd Hin Hraise.
  assert (dict_get (item_row models item w) word = Some NegInf) as Hrow.
  { rewrite item_row_heap. apply keep_truthy_get; [| |done].
    - by rewrite map_map.
    - apply (list_elem_of_fmap_2 (fun wm => (wm.1, calc_value (heap w) item wm.2)))
        in Hin.
      simpl in Hin. unfold calc_value in Hin at 1.
      by rewrite (score_raises_value _ _ _ Hraise) in Hin. }
  destruct (recognize_item_run models item probabilities guesses w)
    as (w' & _ & Hrun).
  destruct (item_row models item w) as [|kv row'] eqn:Erow; [done|].
  destruct Hrun as (guess & Hrun & Hbest). by exists guess, w'.
Qed.

(** ** The search loop of [SelectorBIC] and [SelectorDIC] *)

Lemma winner_at_grow (self : ModelSelector) (h h' : list hmm) (who : option Z)
    (b_model : option loc) :
  winner_at self h who b_model -> winner_at self (h ++ h') who b_model.
Proof.
  destruct who as [n|]; simpl; [|done].
  intros (l & p & -> & Ht & Hl). exists l, p. repeat split; [done|].
  rewrite lookup_app_l; [done|]. by eapply lookup_lt_Some.
Qed.

Section SelectLoop.

Variable self : ModelSelector.
Variable better : pyfloat -> pyfloat -> bool.
Variable sc : Z -> pyfloat.
Variable try_ : Z -> option (option loc) -> M (option (option loc) * pyfloat).
Variable body : Z -> pyfloat * option loc * option (option loc) ->
                M (pyfloat * option loc * option (option loc)).

Hypothesis body_eq : forall n b_s b_model model w,
  body n (b_s, b_model, model) w =
    bind (try_ n model)
      (fun ms =>
         if better ms.2 b_s
         then bind (read_var ms.1) (fun m => ret (ms.2, m, ms.1))
         else ret (b_s, b_model, ms.1)) w.

Hypothesis try_run : forall n model w,
  exists w',
    try_ n model w = (Ok (Some (fresh_model self n (heap w)), sc n), w') /\
    heap w' = heap w ++ [Hmm n (random_state self) (trained self n)].

Hypothesis fail_never_better : forall n b,
  trained self n = None -> better (sc n) b = false.

Lemma select_loop (cands : list Z) (w : world) (who : option Z)
    (b_s : pyfloat) (b_model : option loc) (model : option (option loc)) :
  winner_at self (heap w) who b_model ->
  exists b_model' model' w',
    for_each cands body (b_s, b_model, model) w
    = (Ok ((fold_left (keep_better better sc) cands (who, b_s)).2,
           b_model', model'), w') /\
    winner_at self (heap w')
      (fold_left (keep_better better sc) cands (who, b_s)).1 b_model' /\
    heap w' = heap w ++
      map (fun n => Hmm n (random_state self) (trained self n)) cands.
Proof.
  revert w who b_s b_model model.
  induction cands as [|n rest IH]; intros w who b_s b_model model Hwin.
  - exists b_model, model, w. simpl. by rewrite app_nil_r.
  - cbn [for_each fold_left map]. unfold bind at 1. rewrite body_eq.
    destruct (try_run n model w) as (w1 & Htry & Hheap).
    unfold bind at 1. rewrite Htry. cbn [fst snd].
    unfold keep_better at 2 4. cbn [fst snd].
    destruct (better (sc n) b_s) eqn:Hb.
    + destruct (trained self n) as [p|] eqn:Ht;
        [|by rewrite fail_never_better in Hb].
      unfold fresh_model. rewrite Ht. unfold read_var, bind, ret.
      destruct (IH w1 (Some n) (sc n) (Some (length (heap w)))
                   (Some (Some (length (heap w)))))
        as (b_model' & model' & w' & Hloop & Hwin' & Hheap').
      { exists (length (heap w)), p. repeat split; [done|].
        rewrite Hheap. apply lookup_fresh. }
      exists b_model', model', w'. split; [exact Hloop|]. split; [exact Hwin'|].
      rewrite Hheap', Hheap. by rewrite <- app_assoc.
    + unfold ret at 1.
      destruct (IH w1 who b_s b_model (Some (fresh_model self n (heap w))))
        as (b_model' & model' & w' & Hloop & Hwin' & Hheap').
      { rewrite Hheap. by apply winner_at_grow. }
      exists b_model', model', w'. split; [exact Hloop|]. split; [exact Hwin'|].
      rewrite Hheap', Hheap. by rewrite <- app_assoc.
Qed.

End SelectLoop.

(** ** [SelectorBIC] *)

Lemma score_fresh (self : ModelSelector) (n : Z) (p : params) (d : Xlengths)
    (h : list hmm) (c : list event) :
  score (Some (length h)) d
    (World (h ++ [Hmm n (random_state self) (Some p)]) c)
  = (match hmm_loglik n p d with
     | Some v => Ok v
     | None => Raise LibraryError
     end,
     World (h ++ [Hmm n (random_state self) (Some p)])
           (c ++ [CallScore (length h) d])).
Proof.
  unfold score. cbn [heap]. rewrite lookup_fresh. cbn [fitted n_components].
  by destruct (hmm_loglik n p d).
Qed.

Lemma bic_try_run (self : ModelSelector) (N features : Z) :
  shape (X self) = Ok (N, features) ->
  forall n model w,
  exists w',
    bic_try self n model w
    = (Ok (Some (fresh_model self n (heap w)), bic_score self n), w') /\
    heap w' = heap w ++ [Hmm n (random_state self) (trained self n)].
Proof.
  intros Hshape n model w.
  unfold bic_try, bic_score, fresh_model, try_except, bind, lift.
  rewrite Hshape, base_model_run.
  destruct (trained self n) as [p|] eqn:Ht.
  - fold (own_data self). rewrite score_fresh.
    destruct (hmm_loglik n p (own_data self)) as [logL|];
      [|eexists; split; done].
    destruct (bic_formula logL n features N); eexists; split; done.
  - unfold score, raise, ret. eexists; split; done.
Qed.

Lemma bic_try_no_shape (self : ModelSelector) (e : exn) :
  shape (X self) = Raise e ->
  forall n model w, bic_try self n model w = (Ok (model, PosInf), w).
Proof.
  intros Hshape n model w. unfold bic_try, try_except, bind, lift.
  by rewrite Hshape.
Qed.

Lemma float_lt_PosInf_l (b : pyfloat) : float_lt PosInf b = false.
Proof. by destruct b. Qed.

Lemma bic_loop_no_shape (self : ModelSelector) (e : exn) (cands : list Z)
    (w : world) (b_s : pyfloat) (b_model : option loc)
    (model : option (option loc)) :
  shape (X self) = Raise e ->
  for_each cands (bic_body self) (b_s, b_model, model) w
  = (Ok (b_s, b_model, model), w).
Proof.
  intros Hshape. induction cands as [|n rest IH]; [done|].
  cbn [for_each]. unfold bind at 1. unfold bic_body at 1. unfold bind at 1.
  rewrite (bic_try_no_shape self e Hshape). rewrite float_lt_PosInf_l.
  unfold ret at 1. exact IH.
Qed.

Lemma bic_fail_never_better (self : ModelSelector) (n : Z) (b : pyfloat) :
  trained self n = None -> float_lt (bic_score self n) b = false.
Proof.
  intros Ht. unfold bic_score. rewrite Ht.
  destruct (shape (X self)) as [[N f]|]; apply float_lt_PosInf_l.
Qed.

Lemma bic_body_eq (self : ModelSelector) n b_s b_model model (w : world) :
  bic_body self n (b_s, b_model, model) w =
    bind (bic_try self n model)
      (fun ms =>
         if float_lt ms.2 b_s
         then bind (read_var ms.1) (fun m => ret (ms.2, m, ms.1))
         else ret (b_s, b_model, ms.1)) w.
Proof.
  unfold bic_body, bind. by destruct (bic_try self n model w) as [[[m s]|] w'].
Qed.

(** The first strict minimum of a list of candidates. *)
Lemma float_le_lt (a b : pyfloat) : float_le a b = false -> float_lt a b = false.
Proof. unfold float_le. by intros [? _]%orb_false_iff. Qed.



Lemma float_lt_trans (x c i : pyfloat) :
  float_lt x c = true -> float_lt c i = true -> float_lt x i = true.
Proof. intros. float_order. Qed.


Lemma elem_of_py_range (lo hi m : Z) : m ∈ py_range lo (hi + 1) <-> lo <= m <= hi.
Proof. unfold py_range. rewrite elem_of_seqZ. lia. Qed.

Lemma lookup_py_range (lo hi : Z) (k : nat) (n : Z) :
  py_range lo (hi + 1) !! k = Some n <-> n = lo + Z.of_nat k /\ n <= hi.
Proof. unfold py_range. rewrite lookup_seqZ. lia. Qed.


(** ** [SelectorDIC] *)

Lemma score_at (l : loc) (o : hmm) (p : params) (d : Xlengths) (w : world) :
  heap w !! l = Some o -> fitted o = Some p ->
  exists w', heap w' = heap w /\
    match hmm_loglik (n_components o) p d with
    | Some v => score (Some l) d w = (Ok v, w')
    | None => exists e, score (Some l) d w = (Raise e, w')
    end.
Proof.
  intros Hl Hp. destruct (score_run (Some l) d w) as (w' & Hh & Hrun).
  exists w'. split; [done|]. unfold score_value in Hrun.
  by rewrite Hl, Hp in Hrun.
Qed.

Lemma dic_others_loop (self : ModelSelector) (n : Z) (p : params) (l : loc)
    (ws : list string) (tmp_scores : list pyfloat) (w : world) :
  heap w !! l = Some (Hmm n (random_state self) (Some p)) ->
  exists r w',
    for_each ws (dic_other self (Some l)) tmp_scores w = (r, w') /\
    heap w' = heap w /\
    match dic_others self n p ws tmp_scores with
    | Some res => r = Ok res
    | None => exists e, r = Raise e
    end.
Proof.
  revert tmp_scores w. induction ws as [|word rest IH]; intros tmp_scores w Hl.
  - by exists (Ok tmp_scores), w.
  - cbn [for_each dic_others]. unfold bind at 1. unfold dic_other at 1.
    destruct (negb (String.eqb word (this_word self))).
    + destruct (dict_get (hwords self) word) as [d|].
      * destruct (score_at l _ p d w Hl eq_refl) as (w1 & Hh1 & Hscore).
        cbn [n_components] in Hscore. unfold bind at 1.
        destruct (hmm_loglik n p d) as [v|].
        -- rewrite Hscore. unfold ret at 1.
           destruct (IH (tmp_scores ++ [v]) w1) as (r & w' & Hrun & Hh & Hrest);
             [by rewrite Hh1|].
           exists r, w'. split; [exact Hrun|]. split; [congruence|exact Hrest].
        -- destruct Hscore as [e ->]. exists (Raise e), w1.
           split; [done|]. split; [done|]. by exists e.
      * exists (Raise KeyError), w. split; [done|]. split; [done|].
        by exists KeyError.
    + unfold ret at 1. by apply IH.
Qed.

Lemma dic_try_run (self : ModelSelector) (n : Z) (model : option (option loc))
    (w : world) :
  exists w',
    dic_try self n model w
    = (Ok (Some (fresh_model self n (heap w)), dic_score self n), w') /\
    heap w' = heap w ++ [Hmm n (random_state self) (trained self n)].
Proof.
  unfold dic_try, dic_score, fresh_model. unfold try_except at 1. unfold bind at 1.
  rewrite base_model_run.
  destruct (trained self n) as [p|] eqn:Ht.
  - unfold try_except, bind. fold (own_data self). rewrite score_fresh.
    destruct (hmm_loglik n p (own_data self)) as [logL|].
    + match goal with |- context [for_each _ _ _ ?w1] =>
        destruct (dic_others_loop self n p (length (heap w))
                    (dict_keys (words self)) [] w1)
          as (r & w2 & Hloop & Hh & Hr)
      end.
      { apply lookup_fresh. }
      rewrite Hloop.
      destruct (dic_others self n p (dict_keys (words self)) []) as [tmp|].
      * subst r. exists w2. split; [done|]. by rewrite Hh.
      * destruct Hr as [e ->]. exists w2. split; [done|]. by rewrite Hh.
    + eexists. split; done.
  - unfold try_except, bind, score, raise, ret. eexists. split; done.
Qed.

Lemma float_gt_NegInf_l (b : pyfloat) : float_gt NegInf b = false.
Proof. by destruct b. Qed.

Lemma dic_fail_never_better (self : ModelSelector) (n : Z) (b : pyfloat) :
  trained self n = None -> float_gt (dic_score self n) b = false.
Proof. intros Ht. unfold dic_score. rewrite Ht. apply float_gt_NegInf_l. Qed.

Lemma dic_body_eq (self : ModelSelector) n b_s b_model model (w : world) :
  dic_body self n (b_s, b_model, model) w =
    bind (dic_try self n model)
      (fun ms =>
         if float_gt ms.2 b_s
         then bind (read_var ms.1) (fun m => ret (ms.2, m, ms.1))
         else ret (b_s, b_model, ms.1)) w.
Proof.
  unfold dic_body, bind. by destruct (dic_try self n model w) as [[[m s]|] w'].
Qed.

Lemma SelectorDIC_select_run (self : ModelSelector) (w : world) :
  let cands := py_range (min_n_components self) (max_n_components self + 1) in
  exists b_model w',
    SelectorDIC_select self w = (Ok b_model, w') /\
    winner_at self (heap w')
      (fold_left (keep_better float_gt (dic_score self)) cands (None, NegInf)).1
      b_model.
Proof.
  intros cands. unfold SelectorDIC_select, bind. fold cands.
  destruct (select_loop self float_gt (dic_score self) (dic_try self)
              (dic_body self) (dic_body_eq self) (dic_try_run self)
              (fun n b => dic_fail_never_better self n b)
              cands w None NegInf None None)
    as (b_model & model & w' & Hloop & Hwin & Hheap); [done|].
  rewrite Hloop. by exists b_model, w'.
Qed.

Lemma keep_better_never (better : pyfloat -> pyfloat -> bool)
    (sc : Z -> pyfloat) (cands : list Z) (cur : option Z * pyfloat) :
  (forall n b, n ∈ cands -> better (sc n) b = false) ->
  fold_left (keep_better better sc) cands cur = cur.
Proof.
  revert cur. induction cands as [|n rest IH]; intros cur Hnever; [done|].
  cbn [fold_left]. unfold keep_better at 2.
  rewrite Hnever by left. apply IH. intros m b Hm. apply Hnever. by right.
Qed.

Lemma keep_better_winner (better : pyfloat -> pyfloat -> bool)
    (sc : Z -> pyfloat) (cands : list Z) (cur : option Z * pyfloat) (n : Z) :
  (fold_left (keep_better better sc) cands cur).1 = Some n ->
  cur.1 = Some n \/ n ∈ cands.
Proof.
  revert cur. induction cands as [|m rest IH]; intros cur Hn; [by left|].
  cbn [fold_left] in Hn. apply IH in Hn as [Hn|Hn]; [|right; by right].
  unfold keep_better in Hn. destruct (better (sc m) cur.2); [|by left].
  right. cbn in Hn. injection Hn as ->. left.
Qed.

Lemma float_gt_NaN_l (b : pyfloat) : float_gt NaN b = false.
Proof. by destruct b. Qed.

Lemma dic_score_single_word (self : ModelSelector) (n : Z) :
  dict_keys (words self) = [this_word self] ->
  dic_score self n =
    match trained self n with
    | Some p =>
        match hmm_loglik n p (own_data self) with
        | Some _ => NaN
        | None => NegInf
        end
    | None => NegInf
    end.
Proof.
  intros Hone. unfold dic_score. rewrite Hone. cbn [dic_others].
  rewrite String.eqb_refl. cbn [negb].
  destruct (trained self n) as [p|]; [|done].
  destruct (hmm_loglik n p (own_data self)) as [logL|]; [|done].
  rewrite np_mean_nil. apply float_sub_NaN.
Qed.

(** C3 (amended): with a single-word vocabulary [SelectorDIC.select] never
    raises.  The mean over the empty list of other words is NaN, so the
    score of a candidate that is trained and scored is NaN (minus infinity
    only when training or scoring fails); no candidate compares greater than
    the running best and the result is [None]. *)
Theorem SelectorDIC_single_word (self : ModelSelector) (w : world) :
  dict_keys (words self) = [this_word self] ->
  (forall n model w0, exists m w1,
      dic_try self n model w0 =
        (Ok (m, match trained self n with
                | Some p =>
                    match hmm_loglik n p (own_data self) with
                    | Some _ => NaN
                    | None => NegInf
                    end
                | None => NegInf
                end), w1)) /\
  exists w', SelectorDIC_select self w = (Ok None, w').
Proof.
  intros Hone. split.
  - intros n model w0.
    destruct (dic_try_run self n model w0) as (w1 & Hrun & _).
    rewrite Hrun, (dic_score_single_word self n Hone). by eexists _, _.
  - destruct (SelectorDIC_select_run self w) as (b_model & w' & Hrun & Hwin).
    rewrite keep_better_never in Hwin.
    + cbn in Hwin. subst b_model. by exists w'.
    + intros n b _. rewrite (dic_score_single_word self n Hone).
      destruct (trained self n) as [p|]; [|apply float_gt_NegInf_l].
      destruct (hmm_loglik n p (own_data self));
        [apply float_gt_NaN_l|apply float_gt_NegInf_l].
Qed.

(** ** [SelectorCV] *)

Lemma fit_run (l : loc) (o : hmm) (d : Xlengths) (w : world) :
  heap w !! l = Some o ->
  fit (Some l) d w =
    match hmm_em (n_components o) (seed o) (fitted o) d with
    | Some p =>
        (Ok tt,
         World (<[l := Hmm (n_components o) (seed o) (Some p)]> (heap w))
               (calls w ++ [CallFit l d]))
    | None => (Raise LibraryError, log (CallFit l d) w)
    end.
Proof. intros Hl. unfold fit. by rewrite Hl. Qed.

Lemma cv_fold_none (self : ModelSelector) (fold : list nat * list nat)
    (scores : list pyfloat) (w : world) :
  exists e, cv_fold self None fold scores w = (Raise e, w).
Proof.
  unfold cv_fold. destruct fold as [train_index test_index].
  unfold bind, lift, fit, raise.
  destruct (combine_sequences train_index (sequences self)) as [[X1 len1]|e1];
    [|by exists e1].
  destruct (combine_sequences test_index (sequences self)) as [[X2 len2]|e2];
    [|by exists e2].
  by exists AttributeError.
Qed.

Lemma cv_folds_none (self : ModelSelector) (folds : list (list nat * list nat))
    (w : world) :
  exists r, for_each folds (cv_fold self None) [] w = (r, w) /\
    (r = Ok [] \/ exists e, r = Raise e).
Proof.
  destruct folds as [|fold rest].
  - exists (Ok []). split; [done|by left].
  - cbn [for_each]. unfold bind.
    destruct (cv_fold_none self fold [] w) as [e ->].
    exists (Raise e). split; [done|]. right. by exists e.
Qed.

Lemma cv_calls_cons (self : ModelSelector) (l : loc) (train_index test_index : list nat)
    (rest : list (list nat * list nat)) (d_train d_test : Xlengths) :
  combine_sequences train_index (sequences self) = Ok d_train ->
  combine_sequences test_index (sequences self) = Ok d_test ->
  cv_calls self l ((train_index, test_index) :: rest)
  = CallFit l d_train :: CallScore l d_test :: cv_calls self l rest.
Proof. intros H1 H2. unfold cv_calls. cbn [flat_map fst snd]. by rewrite H1, H2. Qed.

Lemma cv_folds_run (self : ModelSelector) (n : Z) (l : loc)
    (folds : list (list nat * list nat)) (scores : list pyfloat) (w : world)
    (cur : option params) :
  heap w !! l = Some (Hmm n (random_state self) cur) ->
  exists r w1 cur1 cs,
    for_each folds (cv_fold self (Some l)) scores w = (r, w1) /\
    length (heap w1) = length (heap w) /\
    (forall l', l' <> l -> heap w1 !! l' = heap w !! l') /\
    heap w1 !! l = Some (Hmm n (random_state self) cur1) /\
    calls w1 = calls w ++ cs /\
    Forall (fun e => about l e = true) cs /\
    match r with
    | Ok scores1 =>
        cs = cv_calls self l folds /\
        length scores1 = (length scores + length folds)%nat /\
        (folds = [] \/
         exists train_index test_index d_train prev p,
           last folds = Some (train_index, test_index) /\
           combine_sequences train_index (sequences self) = Ok d_train /\
           hmm_em n (random_state self) prev d_train = Some p /\
           cur1 = Some p)
    | Raise _ => True
    end.
Proof.
  revert scores w cur.
  induction folds as [|[train_index test_index] rest IH]; intros scores w cur Hl.
  - exists (Ok scores), w, cur, []. cbn [for_each]. unfold ret.
    rewrite app_nil_r. repeat split; try done. by left.
  - cbn [for_each]. unfold bind at 1. unfold cv_fold at 1.
    unfold bind at 1. unfold lift at 1.
    destruct (combine_sequences train_index (sequences self))
      as [[X_train len_train]|e1] eqn:Htrain.
    2:{ exists (Raise e1), w, cur, []. rewrite app_nil_r. by repeat split. }
    unfold bind at 1. unfold lift at 1.
    destruct (combine_sequences test_index (sequences self))
      as [[X_test len_test]|e2] eqn:Htest.
    2:{ exists (Raise e2), w, cur, []. rewrite app_nil_r. by repeat split. }
    unfold bind at 1. rewrite (fit_run l _ (X_train, len_train) w Hl).
    cbn [n_components seed fitted].
    destruct (hmm_em n (random_state self) cur (X_train, len_train))
      as [p|] eqn:Hem.
    2:{ exists (Raise LibraryError), (log (CallFit l (X_train, len_train)) w),
          cur, [CallFit l (X_train, len_train)].
        repeat split; try done.
        repeat constructor. unfold about. cbn. apply Nat.eqb_refl. }
    assert (l < length (heap w))%nat as Hlt by by eapply lookup_lt_Some.
    set (w2 := World (<[l:=Hmm n (random_state self) (Some p)]> (heap w))
                      (calls w ++ [CallFit l (X_train, len_train)])).
    assert (heap w2 !! l = Some (Hmm n (random_state self) (Some p))) as Hl2.
    { cbn. by apply list_lookup_insert_eq. }
    unfold bind at 1. unfold score at 1. rewrite Hl2. cbn [fitted n_components].
    destruct (hmm_loglik n p (X_test, len_test)) as [v|] eqn:Hll.
    2:{ exists (Raise LibraryError), (log (CallScore l (X_test, len_test)) w2),
          (Some p),
          [CallFit l (X_train, len_train); CallScore l (X_test, len_test)].
        cbn [log heap calls w2]. rewrite length_insert.
        repeat split; try done.
        - intros l' Hne. by apply list_lookup_insert_ne.
        - by rewrite <- app_assoc.
        - repeat constructor; unfold about; cbn; apply Nat.eqb_refl. }
    unfold ret at 1.
    destruct (IH (scores ++ [v]) (log (CallScore l (X_test, len_test)) w2)
                 (Some p) Hl2)
      as (r & w1 & cur1 & cs & Hrun & Hlen & Hother & Hl1 & Hcalls & Habout & Hr).
    exists r, w1, cur1,
      (CallFit l (X_train, len_train) :: CallScore l (X_test, len_test) :: cs).
    split; [exact Hrun|].
    cbn [log heap calls w2] in Hlen, Hother, Hcalls.
    rewrite length_insert in Hlen.
    split; [done|]. split.
    { intros l' Hne. rewrite Hother by done. by apply list_lookup_insert_ne. }
    split; [done|]. split.
    { rewrite Hcalls. by rewrite <- !app_assoc. }
    split.
    { repeat constructor; try done; unfold about; cbn; apply Nat.eqb_refl. }
    destruct r as [scores1|e]; [|done].
    destruct Hr as (-> & Hlen1 & Hlast).
    split; [by rewrite (cv_calls_cons self l _ _ _ _ _ Htrain Htest)|].
    split; [rewrite Hlen1, length_app; cbn; lia|].
    right. destruct Hlast as [->|(tr & te & dtr & prev & p' & Hlast & Hc & Hem' & ->)].
    + exists train_index, test_index, (X_train, len_train), cur, p.
      cbn [for_each] in Hrun. unfold ret in Hrun. injection Hrun as _ <-.
      cbn [log heap] in Hl1. rewrite Hl2 in Hl1. injection Hl1 as <-.
      by repeat split.
    + exists tr, te, dtr, prev, p'. repeat split; try done.
      rewrite last_cons. by rewrite Hlast.
Qed.


Lemma cv_candidate_run (self : ModelSelector) (n : Z) (w : world) :
  exists r w1 cs,
    cv_candidate self n w = (r, w1) /\
    length (heap w1) = S (length (heap w)) /\
    (forall l', (l' < length (heap w))%nat -> heap w1 !! l' = heap w !! l') /\
    calls w1 = calls w ++ cs /\
    Forall (fun e => about (length (heap w)) e = true) cs /\
    match r with
    | Ok (model, s) =>
        model = Some (length (heap w)) /\
        exists folds p train_index test_index d_train prev,
          KFold_split (length (sequences self)) = Ok folds /\
          last folds = Some (train_index, test_index) /\
          combine_sequences train_index (sequences self) = Ok d_train /\
          hmm_em n (random_state self) prev d_train = Some p /\
          heap w1 !! length (heap w) = Some (Hmm n (random_state self) (Some p)) /\
          cs = CallFit (length (heap w)) (own_data self)
               :: cv_calls self (length (heap w)) folds
    | Raise _ => True
    end.
Proof.
  unfold cv_candidate. unfold bind at 1. rewrite base_model_run.
  set (l := length (heap w)).
  set (w0 := World (heap w ++ [Hmm n (random_state self) (trained self n)])
                   (calls w ++ [CallFit l (own_data self)])).
  assert (length (heap w0) = S l) as Hlen0.
  { cbn. rewrite length_app. cbn. lia. }
  assert (forall l', (l' < l)%nat -> heap w0 !! l' = heap w !! l') as Hold0.
  { intros l' Hl'. cbn. by apply lookup_app_l. }
  assert (Forall (fun e => about l e = true) [CallFit l (own_data self)]) as Hab0.
  { repeat constructor. unfold about. cbn. apply Nat.eqb_refl. }
  unfold bind at 1. unfold lift at 1.
  destruct (KFold_split (length (sequences self))) as [folds|e] eqn:Hsplit.
  2:{ exists (Raise e), w0, [CallFit l (own_data self)]. by repeat split. }
  unfold bind at 1.
  destruct (trained self n) as [p|] eqn:Ht.
  - destruct (cv_folds_run self n l folds [] w0 (Some p))
      as (r & w1 & cur1 & cs & Hrun & Hlen & Hother & Hl1 & Hcalls & Habout & Hr).
    { apply lookup_fresh. }
    rewrite Hrun.
    assert (forall l', (l' < l)%nat -> heap w1 !! l' = heap w !! l') as Hold1.
    { intros l' Hl'. rewrite Hother by lia. by apply Hold0. }
    assert (calls w1 = calls w ++ CallFit l (own_data self) :: cs) as Hcalls1.
    { rewrite Hcalls. cbn. by rewrite <- app_assoc. }
    assert (Forall (fun e => about l e = true)
              (CallFit l (own_data self) :: cs)) as Hab1.
    { constructor; [|done]. unfold about. cbn. apply Nat.eqb_refl. }
    destruct r as [scores1|e].
    2:{ exists (Raise e), w1, (CallFit l (own_data self) :: cs).
        repeat split; try done. congruence. }
    unfold bind, lift, ret.
    destruct (statistics_mean scores1) as [s|e] eqn:Hmean.
    2:{ exists (Raise e), w1, (CallFit l (own_data self) :: cs).
        repeat split; try done. congruence. }
    destruct scores1 as [|v scores1];
      [by rewrite statistics_mean_nil in Hmean|].
    eexists (Ok (Some l, s)), w1, (CallFit l (own_data self) :: cs).
    split; [reflexivity|]. split; [congruence|]. split; [done|].
    split; [done|]. split; [done|]. split; [done|].
    destruct Hr as (-> & Hlen1 & Hlast).
    destruct Hlast as [->|(tr & te & dtr & prev & p' & Hlast & Hc & Hem & ->)];
      [cbn in Hlen1; lia|].
    by exists folds, p', tr, te, dtr, prev.
  - destruct (cv_folds_none self folds w0) as (r & -> & Hr).
    destruct Hr as [->|[e ->]].
    + exists (Raise StatisticsError), w0, [CallFit l (own_data self)].
      unfold bind, lift. rewrite statistics_mean_nil. by repeat split.
    + exists (Raise e), w0, [CallFit l (own_data self)]. by repeat split.
Qed.


Lemma about_true (l : loc) (e : event) : about l e = true <-> event_loc e = l.
Proof. unfold about. apply Nat.eqb_eq. Qed.

Lemma filter_about_all (l : loc) (cs : list event) :
  Forall (fun e => about l e = true) cs -> List.filter (about l) cs = cs.
Proof.
  induction 1 as [|e cs He _ IH]; [done|]. cbn. by rewrite He, IH.
Qed.

Lemma filter_about_none (l : loc) (cs : list event) :
  Forall (fun e => event_loc e <> l) cs -> List.filter (about l) cs = [].
Proof.
  induction 1 as [|e cs He _ IH]; [done|]. cbn.
  destruct (about l e) eqn:Hab; [|done]. by apply about_true in Hab.
Qed.

Lemma refit_per_fold_later (self : ModelSelector) (h h' : list hmm)
    (cs1 cs2 : list event) (l : loc) :
  h' !! l = h !! l ->
  Forall (fun e => event_loc e <> l) cs1 ->
  refit_per_fold self h cs2 l -> refit_per_fold self h' (cs1 ++ cs2) l.
Proof.
  intros Hh Hcs1 (n & folds & p & tr & te & dtr & prev & Hn & Hsplit & Hlast
                  & Hc & Hem & Hl & Hcalls).
  exists n, folds, p, tr, te, dtr, prev.
  split; [done|]. split; [done|]. split; [done|]. split; [done|].
  split; [done|]. split; [congruence|].
  by rewrite List.filter_app, (filter_about_none l cs1 Hcs1).
Qed.

Lemma cv_loop (self : ModelSelector) (cands : list Z) (w : world)
    (b_s : pyfloat) (b_model : option loc) :
  (forall n, n ∈ cands ->
             min_n_components self <= n <= max_n_components self) ->
  exists b_s' b_model' w' cs,
    for_each cands (cv_body self) (b_s, b_model) w = (Ok (b_s', b_model'), w') /\
    (length (heap w) <= length (heap w'))%nat /\
    (forall l', (l' < length (heap w))%nat -> heap w' !! l' = heap w !! l') /\
    calls w' = calls w ++ cs /\
    Forall (fun e => (length (heap w) <= event_loc e)%nat) cs /\
    (b_model' = b_model \/
     exists l, b_model' = Some l /\ (length (heap w) <= l)%nat /\
               refit_per_fold self (heap w') cs l).
Proof.
  revert w b_s b_model.
  induction cands as [|n rest IH]; intros w b_s b_model Hrange.
  - exists b_s, b_model, w, []. cbn [for_each]. unfold ret. rewrite app_nil_r.
    repeat split; try done. by left.
  - cbn [for_each]. unfold bind at 1. unfold cv_body at 1.
    unfold try_except, bind.
    destruct (cv_candidate_run self n w)
      as (r & w1 & cs1 & Hrun & Hlen1 & Hold1 & Hcalls1 & Hab1 & Hr).
    rewrite Hrun.
    assert (forall n', n' ∈ rest ->
              min_n_components self <= n' <= max_n_components self) as Hrest.
    { intros n' Hn'. apply Hrange. by right. }
    assert (Forall (fun e => event_loc e = length (heap w)) cs1) as Hloc1.
    { eapply Forall_impl; [exact Hab1|]. intros e He. by apply about_true. }
    set (vars1 :=
           match r with
           | Ok (model, s) => if float_gt s b_s then (s, model) else (b_s, b_model)
           | Raise _ => (b_s, b_model)
           end).
    destruct (IH w1 vars1.1 vars1.2 Hrest)
      as (b_s' & b_model' & w' & cs2 & Hloop & Hlen2 & Hold2 & Hcalls2 & Hab2 & Hres).
    exists b_s', b_model', w', (cs1 ++ cs2).
    split.
    { rewrite <- Hloop. subst vars1. destruct r as [[model s]|e]; [|done].
      unfold ret. by destruct (float_gt s b_s). }
    split; [lia|]. split.
    { intros l' Hl'. rewrite Hold2 by lia. by apply Hold1. }
    split; [rewrite Hcalls2, Hcalls1; by rewrite <- app_assoc|]. split.
    { apply Forall_app. split.
      - eapply Forall_impl; [exact Hloc1|]. intros e He. cbn in He. lia.
      - eapply Forall_impl; [exact Hab2|]. intros e He. cbn in He. lia. }
    destruct Hres as [Hsame|(l & -> & Hl & Hfit)].
    + subst vars1. destruct r as [[model s]|e]; [|by left].
      destruct (float_gt s b_s); [|by left].
      right. cbn [snd] in Hsame. destruct Hr as (-> & folds & p & tr & te & dtr
                                               & prev & Hsplit & Hlast & Hc & Hem
                                               & Hl1 & ->).
      exists (length (heap w)). split; [done|]. split; [done|].
      exists n, folds, p, tr, te, dtr, prev.
      split; [apply Hrange; left|].
      split; [done|]. split; [done|]. split; [done|]. split; [done|]. split.
      * rewrite Hold2 by lia. done.
      * rewrite List.filter_app.
        rewrite (filter_about_all _ _ Hab1), (filter_about_none _ cs2).
        -- by rewrite app_nil_r.
        -- eapply Forall_impl; [exact Hab2|]. intros e He. cbn in He. lia.
    + right. exists l. split; [done|]. split; [lia|].
      apply (refit_per_fold_later self (heap w')); [done| |done].
      eapply Forall_impl; [exact Hloc1|]. intros e He. cbn in He. lia.
Qed.


Lemma SelectorCV_select_run (self : ModelSelector) (w : world) :
  exists b_model w' cs,
    SelectorCV_select self w = (Ok b_model, w') /\
    calls w' = calls w ++ cs /\
    ((b_model = fresh_model self 3 (heap w) /\
      heap w' !! length (heap w)
      = Some (Hmm 3 (random_state self) (trained self 3))) \/
     exists l, b_model = Some l /\ (length (heap w) < l)%nat /\
               refit_per_fold self (heap w') cs l).
Proof.
  unfold SelectorCV_select. unfold bind at 1. rewrite base_model_run.
  fold (fresh_model self 3 (heap w)).
  set (w0 := World (heap w ++ [Hmm 3 (random_state self) (trained self 3)])
                   (calls w ++ [CallFit (length (heap w)) (own_data self)])).
  destruct (length (sequences self) <? 3)%nat.
  - exists (fresh_model self 3 (heap w)), w0,
      [CallFit (length (heap w)) (own_data self)].
    split; [done|]. split; [done|]. left. split; [done|]. apply lookup_fresh.
  - destruct (cv_loop self (py_range (min_n_components self)
                                     (max_n_components self + 1))
                w0 NegInf (fresh_model self 3 (heap w)))
      as (b_s' & b_model' & w' & cs & Hloop & Hlen & Hold & Hcalls & Hab & Hres).
    { intros n Hn. by apply elem_of_py_range. }
    unfold bind. rewrite Hloop. unfold ret.
    assert (length (heap w0) = S (length (heap w))) as Hlen0.
    { cbn. rewrite length_app. cbn. lia. }
    exists b_model', w', (CallFit (length (heap w)) (own_data self) :: cs).
    split; [done|]. split.
    { rewrite Hcalls. cbn. by rewrite <- app_assoc. }
    destruct Hres as [->|(l & -> & Hl & Hfit)].
    + left. split; [done|]. rewrite Hold by lia. apply lookup_fresh.
    + right. exists l. split; [done|]. split; [lia|].
      apply (refit_per_fold_later self (heap w') (heap w')
               [CallFit (length (heap w)) (own_data self)] cs l); [done| |done].
      repeat constructor. cbn. lia.
Qed.

(** C10: when [SelectorCV.select] returns a model chosen by the loop over
    the folds (any model other than the initial three-state one), the calls
    made on that object are the initial fit on the word's own data followed
    by one refit and one scoring per fold, and its parameters are those of
    the refit on the training part of the last fold. *)
Theorem SelectorCV_returns_last_refit (self : ModelSelector) (w w' : world)
    (l : loc) :
  SelectorCV_select self w = (Ok (Some l), w') ->
  l <> length (heap w) ->
  exists cs, calls w' = calls w ++ cs /\ refit_per_fold self (heap w') cs l.
Proof.
  intros Hsel Hne.
  destruct (SelectorCV_select_run self w) as (b_model & w1 & cs & Hrun & Hcalls & Hres).
  rewrite Hsel in Hrun. injection Hrun as <- <-.
  destruct Hres as [[Hfresh _]|(l' & [= <-] & _ & Hfit)].
  - unfold fresh_model in Hfresh. destruct (trained self 3); [|done].
    injection Hfresh as ->. done.
  - by exists cs.
Qed.

(** C6: a candidate whose evaluation raises leaves the running best score
    and model untouched, and when every candidate of the range raises the
    result is whatever [base_model 3] returned. *)
Theorem SelectorCV_failed_candidate_skipped (self : ModelSelector) :
  (forall n b_s b_model w e w1,
      cv_candidate self n w = (Raise e, w1) ->
      cv_body self n (b_s, b_model) w = (Ok (b_s, b_model), w1)) /\
  (forall w,
      (forall n w0,
          min_n_components self <= n <= max_n_components self ->
          exists e w1, cv_candidate self n w0 = (Raise e, w1)) ->
      exists w', SelectorCV_select self w = ((base_model self 3 w).1, w')).
Proof.
  assert (forall n b_s b_model w e w1,
             cv_candidate self n w = (Raise e, w1) ->
             cv_body self n (b_s, b_model) w = (Ok (b_s, b_model), w1)) as Hskip.
  { intros n b_s b_model w e w1 Hraise.
    unfold cv_body, try_except, bind. by rewrite Hraise. }
  split; [exact Hskip|].
  intros w Hall. unfold SelectorCV_select. unfold bind at 1.
  rewrite base_model_run. cbn [fst].
  match goal with |- context [World ?h ?c] => generalize (World h c) end.
  intros w0.
  destruct (length (sequences self) <? 3)%nat; [by exists w0|].
  unfold bind.
  assert (forall cands vars w1,
             (forall n, n ∈ cands ->
                        min_n_components self <= n <= max_n_components self) ->
             exists w2, for_each cands (cv_body self) vars w1 = (Ok vars, w2))
    as Hloop.
  { induction cands as [|n rest IH]; intros [b_s b_model] w1 Hrange.
    - by exists w1.
    - destruct (Hall n w1) as (e & w2 & Hraise); [apply Hrange; left|].
      cbn [for_each]. unfold bind. rewrite (Hskip _ _ _ _ _ _ Hraise).
      apply IH. intros n' Hn'. apply Hrange. by right. }
  destruct (Hloop (py_range (min_n_components self) (max_n_components self + 1))
              (NegInf, match trained self 3 with
                       | Some _ => Some (length (heap w))
                       | None => None
                       end) w0) as (w2 & ->).
  { intros n Hn. by apply elem_of_py_range. }
  by exists w2.
Qed.

Lemma SelectorBIC_select_run (self : ModelSelector) (w : world) :
  exists b_model w' who,
    SelectorBIC_select self w = (Ok b_model, w') /\
    winner_at self (heap w') who b_model /\
    (forall n, who = Some n ->
               min_n_components self <= n <= max_n_components self).
Proof.
  unfold SelectorBIC_select, bind.
  destruct (shape (X self)) as [[N features]|e] eqn:Hshape.
  - destruct (select_loop self float_lt (bic_score self) (bic_try self)
                (bic_body self) (bic_body_eq self)
                (bic_try_run self N features Hshape)
                (fun n b => bic_fail_never_better self n b)
                (py_range (min_n_components self) (max_n_components self + 1))
                w None PosInf None None)
      as (b_model & model & w' & Hloop & Hwin & Hheap); [done|].
    rewrite Hloop. eexists b_model, w', _. split; [done|]. split; [exact Hwin|].
    intros n Hn. apply keep_better_winner in Hn as [Hn|Hn]; [done|].
    by apply elem_of_py_range.
  - rewrite (bic_loop_no_shape self e _ _ _ _ _ Hshape).
    by exists None, w, None.
Qed.

Lemma winner_at_states (self : ModelSelector) (h : list hmm) (who : option Z)
    (l : loc) :
  winner_at self h who (Some l) ->
  exists n o, who = Some n /\ h !! l = Some o /\ n_components o = n.
Proof.
  destruct who as [n|]; [|done].
  intros (l' & p & [= <-] & _ & Hl). by eexists n, _.
Qed.

(** C4 (amended): the state count of a returned model is [n_constant] for
    [SelectorConstant], lies in [[min_n_components, max_n_components]] for
    [SelectorBIC] and [SelectorDIC], and for [SelectorCV] lies in that range
    or is the fixed fallback 3. *)
Theorem selected_state_count (self : ModelSelector) (w : world) :
  let lo := min_n_components self in
  let hi := max_n_components self in
  (forall l w', SelectorConstant_select self w = (Ok (Some l), w') ->
     exists o, heap w' !! l = Some o /\ n_components o = n_constant self) /\
  (forall l w', SelectorBIC_select self w = (Ok (Some l), w') ->
     exists o, heap w' !! l = Some o /\ lo <= n_components o <= hi) /\
  (forall l w', SelectorDIC_select self w = (Ok (Some l), w') ->
     exists o, heap w' !! l = Some o /\ lo <= n_components o <= hi) /\
  (forall l w', SelectorCV_select self w = (Ok (Some l), w') ->
     exists o, heap w' !! l = Some o /\
               (n_components o = 3 \/ lo <= n_components o <= hi)).
Proof.
  intros lo hi. split; [|split; [|split]]; intros l w' Hsel.
  - unfold SelectorConstant_select in Hsel. rewrite base_model_run in Hsel.
    destruct (trained self (n_constant self)) as [p|]; [|done].
    injection Hsel as <- <-. eexists. split; [apply lookup_fresh|done].
  - destruct (SelectorBIC_select_run self w)
      as (b_model & w1 & who & Hrun & Hwin & Hrange).
    rewrite Hsel in Hrun. injection Hrun as <- <-.
    apply winner_at_states in Hwin as (n & o & -> & Hl & Hn).
    exists o. split; [done|]. rewrite Hn. by apply Hrange.
  - destruct (SelectorDIC_select_run self w) as (b_model & w1 & Hrun & Hwin).
    rewrite Hsel in Hrun. injection Hrun as <- <-.
    apply winner_at_states in Hwin as (n & o & Hwho & Hl & Hn).
    exists o. split; [done|]. rewrite Hn.
    apply keep_better_winner in Hwho as [Hwho|Hwho]; [done|].
    by apply elem_of_py_range.
  - destruct (SelectorCV_select_run self w)
      as (b_model & w1 & cs & Hrun & _ & Hres).
    rewrite Hsel in Hrun. injection Hrun as <- <-.
    destruct Hres as [[Hfresh Hl]|(l' & [= <-] & _ & Hfit)].
    + unfold fresh_model in Hfresh. destruct (trained self 3); [|done].
      injection Hfresh as ->. eexists. split; [exact Hl|]. by left.
    + destruct Hfit as (n & folds & p & tr & te & dtr & prev & Hn & _ & _ & _
                        & _ & Hl & _).
      eexists. split; [exact Hl|]. by right.
Qed.


(** ** Further properties of the selectors *)

Lemma SelectorBIC_select_heap (self : ModelSelector) (w : world) :
  exists r w' new,
    SelectorBIC_select self w = (Ok r, w') /\ heap w' = heap w ++ new.
Proof.
  unfold SelectorBIC_select, bind.
  destruct (shape (X self)) as [[N features]|e] eqn:Hshape.
  - destruct (select_loop self float_lt (bic_score self) (bic_try self)
                (bic_body self) (bic_body_eq self)
                (bic_try_run self N features Hshape)
                (fun n b => bic_fail_never_better self n b)
                (py_range (min_n_components self) (max_n_components self + 1))
                w None PosInf None None)
      as (b_model & model & w' & Hloop & _ & Hheap); [done|].
    rewrite Hloop. by eexists b_model, w', _.
  - rewrite (bic_loop_no_shape self e _ _ _ _ _ Hshape).
    exists None, w, []. by rewrite app_nil_r.
Qed.

Lemma SelectorDIC_select_heap (self : ModelSelector) (w : world) :
  exists r w',
    SelectorDIC_select self w = (Ok r, w') /\
    heap w' = heap w ++
      map (fun n => Hmm n (random_state self) (trained self n))
          (py_range (min_n_components self) (max_n_components self + 1)).
Proof.
  unfold SelectorDIC_select, bind.
  destruct (select_loop self float_gt (dic_score self) (dic_try self)
              (dic_body self) (dic_body_eq self) (dic_try_run self)
              (fun n b => dic_fail_never_better self n b)
              (py_range (min_n_components self) (max_n_components self + 1))
              w None NegInf None None)
    as (b_model & model & w' & Hloop & _ & Hheap); [done|].
  rewrite Hloop. by exists b_model, w'.
Qed.

Lemma SelectorCV_select_heap (self : ModelSelector) (w : world) :
  exists r w',
    SelectorCV_select self w = (Ok r, w') /\
    (length (heap w) <= length (heap w'))%nat /\
    forall l, (l < length (heap w))%nat -> heap w' !! l = heap w !! l.
Proof.
  unfold SelectorCV_select. unfold bind at 1. rewrite base_model_run.
  set (w0 := World (heap w ++ [Hmm 3 (random_state self) (trained self 3)])
                   (calls w ++ [CallFit (length (heap w)) (own_data self)])).
  assert (length (heap w0) = S (length (heap w))) as Hlen0.
  { cbn. rewrite length_app. cbn. lia. }
  assert (forall l, (l < length (heap w))%nat -> heap w0 !! l = heap w !! l)
    as Hold0.
  { intros l Hl. cbn. by apply lookup_app_l. }
  destruct (length (sequences self) <? 3)%nat.
  - eexists _, w0. split; [reflexivity|]. split; [lia|done].
  - destruct (cv_loop self (py_range (min_n_components self)
                                     (max_n_components self + 1))
                w0 NegInf (match trained self 3 with
                           | Some _ => Some (length (heap w))
                           | None => None
                           end))
      as (b_s' & b_model' & w' & cs & Hloop & Hlen & Hold & _).
    { intros n Hn. by apply elem_of_py_range. }
    unfold bind. rewrite Hloop. unfold ret.
    exists b_model', w'. split; [done|]. split; [lia|].
    intros l Hl. rewrite Hold by lia. by apply Hold0.
Qed.

Lemma take_frame (h h' : list hmm) :
  (length h <= length h')%nat ->
  (forall l, (l < length h)%nat -> h' !! l = h !! l) ->
  take (length h) h' = h.
Proof.
  intros Hlen Hold. apply list_eq. intros l.
  destruct (decide (l < length h)%nat) as [Hl|Hl].
  - rewrite lookup_take_lt by done. by apply Hold.
  - rewrite lookup_take_ge by lia. symmetry. apply lookup_ge_None. lia.
Qed.

(** X1: no selection strategy raises, whatever the HMM library does: each
    [select] returns a reference to a model or [None]. *)
Theorem select_never_raises (self : ModelSelector) (w : world) :
  (exists r w', SelectorConstant_select self w = (Ok r, w')) /\
  (exists r w', SelectorBIC_select self w = (Ok r, w')) /\
  (exists r w', SelectorDIC_select self w = (Ok r, w')) /\
  (exists r w', SelectorCV_select self w = (Ok r, w')).
Proof.
  split; [|split; [|split]].
  - unfold SelectorConstant_select. rewrite base_model_run. by eexists _, _.
  - destruct (SelectorBIC_select_heap self w) as (r & w' & new & Hrun & _).
    by exists r, w'.
  - destruct (SelectorDIC_select_heap self w) as (r & w' & Hrun & _).
    by exists r, w'.
  - destruct (SelectorCV_select_heap self w) as (r & w' & Hrun & _).
    by exists r, w'.
Qed.

(** X2: selecting a model never touches the objects that existed before:
    the heap after [select] starts with the heap before it, for every
    strategy.  Models selected earlier for other words stay as they were. *)
Theorem select_keeps_existing_models (self : ModelSelector) (w : world) :
  take (length (heap w)) (heap (SelectorConstant_select self w).2) = heap w /\
  take (length (heap w)) (heap (SelectorBIC_select self w).2) = heap w /\
  take (length (heap w)) (heap (SelectorDIC_select self w).2) = heap w /\
  take (length (heap w)) (heap (SelectorCV_select self w).2) = heap w.
Proof.
  split; [|split; [|split]].
  - unfold SelectorConstant_select. rewrite base_model_run. cbn [snd heap].
    by rewrite take_app_length.
  - destruct (SelectorBIC_select_heap self w) as (r & w' & new & -> & Hh).
    cbn [snd]. rewrite Hh. by rewrite take_app_length.
  - destruct (SelectorDIC_select_heap self w) as (r & w' & -> & Hh).
    cbn [snd]. rewrite Hh. by rewrite take_app_length.
  - destruct (SelectorCV_select_heap self w) as (r & w' & -> & Hlen & Hold).
    cbn [snd]. by apply take_frame.
Qed.


(** ** Further properties of the recognizer *)

Lemma recognize_loop_heap (models : dict (option loc)) (test_set : list Xlengths)
    (vars : list (dict pyfloat) * list string) (w : world) :
  heap (for_each test_set (recognize_item models) vars w).2 = heap w.
Proof.
  revert vars w. induction test_set as [|item rest IH]; intros [ps gs] w; [done|].
  cbn [for_each]. unfold bind.
  destruct (recognize_item_run models item ps gs w) as (w1 & Hh & Hrun).
  destruct (item_row models item w) as [|kv row'].
  - by rewrite Hrun.
  - destruct Hrun as (guess & -> & _). by rewrite IH.
Qed.

(** X3: [recognize] only reads the models: whether it returns or raises,
    the heap of model objects is the one it started with. *)
Theorem recognize_keeps_models (models : dict (option loc))
    (test_set : list Xlengths) (w : world) :
  heap (recognize models test_set w).2 = heap w.
Proof. unfold recognize. apply recognize_loop_heap. Qed.

(** X4: on an empty test set [recognize] returns two empty lists without
    touching anything; with no models at all and at least one test item it
    raises [ValueError] at the first item, before scoring anything. *)
Theorem recognize_empty_inputs :
  (forall models w, recognize models [] w = (Ok ([], []), w)) /\
  (forall item rest w, recognize [] (item :: rest) w = (Raise ValueError, w)).
Proof.
  split; [done|].
  intros [X0 len0] rest w. unfold recognize. cbn [for_each].
  unfold bind at 1. unfold recognize_item, score_all. cbn [for_each].
  unfold bind, ret, lift. done.
Qed.

Lemma dict_set_fresh {V} (d : dict V) (k : string) (v : V) :
  k ∉ dict_keys d -> dict_set d k v = d ++ [(k, v)].
Proof.
  induction d as [|[k' v'] d IH]; intros Hk; [done|].
  cbn in Hk. apply not_elem_of_cons in Hk as [Hne Hk].
  cbn. apply String.eqb_neq in Hne. rewrite Hne. by rewrite IH.
Qed.

Lemma keep_truthy_fold (pairs : list (string * pyfloat)) (acc : dict pyfloat) :
  NoDup (dict_keys acc ++ map fst pairs) ->
  fold_left
    (fun probs '(word, score) =>
       if truthy score then dict_set probs word score else probs)
    pairs acc
  = acc ++ List.filter (fun p => truthy p.2) pairs.
Proof.
  revert acc. induction pairs as [|[k s] pairs IH]; intros acc Hnd.
  - cbn. by rewrite app_nil_r.
  - cbn [fold_left List.filter snd]. cbn [map fst] in Hnd.
    apply NoDup_app in Hnd as (Hacc & Hdisj & Hpairs).
    apply NoDup_cons in Hpairs as [Hk Hpairs].
    assert (k ∉ dict_keys acc) as Hfresh.
    { intros Hin. apply (Hdisj k Hin). left. }
    destruct (truthy s).
    + rewrite dict_set_fresh by done. rewrite IH.
      * by rewrite <- app_assoc.
      * unfold dict_keys. rewrite map_app. cbn. rewrite <- app_assoc. cbn.
        apply NoDup_app. split; [done|]. split.
        -- intros x Hx Hin. apply (Hdisj x Hx). done.
        -- by apply NoDup_cons.
    + apply IH. apply NoDup_app. split; [done|]. split; [|done].
      intros x Hx Hin. apply (Hdisj x Hx). by right.
Qed.

Lemma keep_truthy_filter (pairs : list (string * pyfloat)) :
  NoDup (map fst pairs) ->
  keep_truthy pairs = List.filter (fun p => truthy p.2) pairs.
Proof. intros Hnd. unfold keep_truthy. by rewrite keep_truthy_fold. Qed.

Lemma dict_get_elem_of {V} (d : dict V) (k : string) (v : V) :
  NoDup (dict_keys d) -> dict_get d k = Some v <-> (k, v) ∈ d.
Proof.
  induction d as [|[k' v'] d IH]; intros Hnd.
  - cbn. split; [done|]. by intros ?%elem_of_nil.
  - cbn in Hnd. apply NoDup_cons in Hnd as [Hk Hnd]. cbn.
    destruct (String.eqb k k') eqn:E.
    + apply String.eqb_eq in E. subst k'. split.
      * intros [= ->]. left.
      * intros [[= ->]|Hin]%elem_of_cons; [done|].
        exfalso. apply Hk.
        by apply (list_elem_of_fmap_2 fst) in Hin.
    + apply String.eqb_neq in E. rewrite IH by done. split.
      * intros Hin. by right.
      * intros [[= -> ->]|Hin]%elem_of_cons; [done|done].
Qed.

Lemma item_row_filter (models : dict (option loc)) (item : Xlengths) (w : world) :
  NoDup (dict_keys models) ->
  item_row models item w =
    List.filter (fun p => truthy p.2)
      (map (fun wm => (wm.1, calc_value (heap w) item wm.2)) models).
Proof.
  intros Hnd. rewrite item_row_heap. apply keep_truthy_filter.
  by rewrite map_map.
Qed.

Lemma calculate_score_value (model : option loc) (item : Xlengths) (w : world) :
  (calculate_score model item.1 item.2 w).1 = Ok (calc_value (heap w) item model).
Proof.
  destruct item as [X0 len0]. cbn [fst snd].
  by destruct (calculate_score_run model X0 len0 w) as (w' & _ & ->).
Qed.

Lemma filter_sublist {A} (f : A -> bool) (l : list A) :
  sublist (List.filter f l) l.
Proof.
  induction l as [|x l IH]; [done|]. cbn.
  destruct (f x); [by apply sublist_skip|by apply sublist_cons].
Qed.

(** X5: when the words of [models] are distinct, the ScoreRow of a test item
    holds exactly the words whose [calculate_score] value is truthy: anything
    but zero, so minus infinity and NaN stay and 0.0 goes.  The words of the
    row come in the order of [models]. *)
Theorem score_row_entries (models : dict (option loc)) (item : Xlengths)
    (w : world) :
  NoDup (dict_keys models) ->
  (forall word v,
      dict_get (item_row models item w) word = Some v <->
      exists model,
        (word, model) ∈ models /\
        (calculate_score model item.1 item.2 w).1 = Ok v /\
        truthy v = true) /\
  sublist (dict_keys (item_row models item w)) (dict_keys models).
Proof.
  intros Hnd. rewrite (item_row_filter models item w Hnd).
  set (pairs := map (fun wm => (wm.1, calc_value (heap w) item wm.2)) models).
  assert (map fst pairs = dict_keys models) as Hkeys.
  { unfold pairs. by rewrite map_map. }
  pose proof (filter_sublist (fun p : string * pyfloat => truthy p.2) pairs)
    as Hsub.
  split.
  - intros word v. rewrite dict_get_elem_of.
    2:{ eapply (sublist_NoDup _ (map fst pairs));
          [by rewrite Hkeys|by apply (fmap_sublist fst)]. }
    rewrite list_elem_of_In, List.filter_In, <- list_elem_of_In. cbn [snd].
    unfold pairs. rewrite list_elem_of_fmap. split.
    + intros [([word' model] & [= -> ->] & Hin) Ht].
      exists model. split; [done|]. by rewrite calculate_score_value.
    + intros (model & Hin & Hv & Ht). rewrite calculate_score_value in Hv.
      injection Hv as <-. split; [|done]. by exists (word, model).
  - rewrite <- Hkeys. by apply (fmap_sublist fst).
Qed.


Lemma float_up_asym (x g : pyfloat) :
  float_gt x g = true -> float_le x g = false.
Proof. intros. float_order. Qed.

Lemma float_up_keep_le (v g x : pyfloat) :
  float_le g v = false -> float_gt x g = true -> float_le x v = false.
Proof. intros. float_order. Qed.

Lemma float_up_keep_gt (v g x : pyfloat) :
  float_gt v g = false -> float_gt x g = true -> float_le x v = false.
Proof. intros. float_order. Qed.

Lemma max_loop_first (key : string -> option pyfloat) (pre items : list string)
    (i : nat) (maxitem : string) (g : pyfloat) :
  pre !! i = Some maxitem ->
  key maxitem = Some g ->
  (forall x, x ∈ items -> is_Some (key x)) ->
  (forall j x v, (j < i)%nat -> pre !! j = Some x -> key x = Some v ->
                 float_le g v = false) ->
  (forall j x v, pre !! j = Some x -> key x = Some v -> float_gt v g = false) ->
  exists guess g' i',
    max_loop key items maxitem (Some g) = Ok guess /\
    (pre ++ items) !! i' = Some guess /\
    key guess = Some g' /\
    forall j x v, (j < i')%nat -> (pre ++ items) !! j = Some x ->
                  key x = Some v -> float_le g' v = false.
Proof.
  revert pre i maxitem g.
  induction items as [|x rest IH]; intros pre i maxitem g Hi Hg Hkeys Hbefore Hall.
  - exists maxitem, g, i. cbn [max_loop]. rewrite app_nil_r.
    split; [done|]. split; [done|]. split; [done|]. exact Hbefore.
  - destruct (Hkeys x) as [vx Hx]; [left|].
    cbn [max_loop]. rewrite Hx. cbn [key_gt].
    assert (pre ++ x :: rest = (pre ++ [x]) ++ rest) as Happ
      by by rewrite <- app_assoc.
    rewrite Happ.
    assert (forall y, y ∈ rest -> is_Some (key y)) as Hkeys'.
    { intros y Hy. apply Hkeys. by right. }
    destruct (float_gt vx g) eqn:Hgt.
    + apply (IH (pre ++ [x]) (length pre) x vx); [|done|done| |].
      * by apply list_lookup_middle.
      * intros j y v Hj Hy Hv. rewrite lookup_app_l in Hy by done.
        destruct (decide (j < i)%nat) as [Hlt|Hge].
        -- eapply float_up_keep_le; [|exact Hgt]. by eapply Hbefore.
        -- eapply float_up_keep_gt; [|exact Hgt]. by eapply Hall.
      * intros j y v Hy Hv.
        apply lookup_app_Some in Hy as [Hy|[Hlen Hy]].
        -- eapply float_gt_raise; [|exact Hgt]. by eapply Hall.
        -- apply list_lookup_singleton_Some in Hy as [_ <-].
           assert (v = vx) as -> by congruence. apply float_gt_irrefl.
    + apply (IH (pre ++ [x]) i maxitem g); [|done|done| |].
      * rewrite lookup_app_l; [done|]. by eapply lookup_lt_Some.
      * intros j y v Hj Hy Hv. apply (Hbefore j y v); [done| |done].
        rewrite lookup_app_l in Hy; [done|].
        apply lookup_lt_Some in Hi. lia.
      * intros j y v Hy Hv.
        apply lookup_app_Some in Hy as [Hy|[Hlen Hy]].
        -- by eapply Hall.
        -- apply list_lookup_singleton_Some in Hy as [_ <-].
           by assert (v = vx) as -> by congruence.
Qed.

Lemma dict_lookup_get {V} (d : dict V) (j : nat) (k : string) (v : V) :
  NoDup (dict_keys d) -> d !! j = Some (k, v) ->
  dict_keys d !! j = Some k /\ dict_get d k = Some v.
Proof.
  intros Hnd Hj. split.
  - unfold dict_keys. change (map fst d) with (fst <$> d).
    rewrite list_lookup_fmap, Hj. done.
  - apply dict_get_elem_of; [done|]. by eapply list_elem_of_lookup_2.
Qed.

Lemma py_max_first (probs : dict pyfloat) (guess : string) :
  NoDup (dict_keys probs) ->
  py_max (dict_keys probs) (dict_get probs) = Ok guess ->
  exists g i,
    probs !! i = Some (guess, g) /\
    forall j word v, (j < i)%nat -> probs !! j = Some (word, v) ->
                     float_le g v = false.
Proof.
  intros Hnd Hmax. destruct probs as [|[k0 v0] rest] eqn:Ep; [done|].
  rewrite <- Ep in *.
  assert (dict_keys probs = [k0] ++ dict_keys rest) as Hk by by subst.
  assert (dict_get probs k0 = Some v0) as H0.
  { subst probs. cbn. by rewrite String.eqb_refl. }
  rewrite Hk in Hmax. cbn [app py_max] in Hmax. rewrite H0 in Hmax.
  destruct (max_loop_first (dict_get probs) [k0] (dict_keys rest) 0 k0 v0)
    as (guess' & g' & i' & Hrun & Hi' & Hkey & Hbefore); [done|done| | | |].
  - intros x Hx. apply dict_keys_get. rewrite Hk. by right.
  - intros j x v Hj. lia.
  - intros [|j] x v Hx Hv; [|done]. injection Hx as <-.
    assert (v = v0) as -> by congruence. apply float_gt_irrefl.
  - rewrite Hrun in Hmax. injection Hmax as ->. rewrite <- Hk in Hi', Hbefore.
    unfold dict_keys in Hi'. change (map fst probs) with (fst <$> probs) in Hi'.
    rewrite list_lookup_fmap in Hi'.
    destruct (probs !! i') as [[k g]|] eqn:Hpi; [|done].
    cbn in Hi'. injection Hi' as ->.
    destruct (dict_lookup_get probs i' guess g Hnd Hpi) as [_ Hgg].
    assert (g = g') as -> by congruence.
    exists g', i'. split; [done|].
    intros j word v Hj Hpj.
    destruct (dict_lookup_get probs j word v Hnd Hpj) as [Hkj Hvj].
    by eapply Hbefore.
Qed.

(** X6: ties go to the first word.  When the words of [models] are distinct
    and a guess is made for a test item, every word that comes before the
    guess in the item's ScoreRow has a strictly lower score (or one that
    does not compare). *)
Theorem guess_is_first_maximum (models : dict (option loc)) (item : Xlengths)
    (probabilities probabilities' : list (dict pyfloat))
    (guesses guesses' : list string) (w w' : world) :
  NoDup (dict_keys models) ->
  recognize_item models item (probabilities, guesses) w
  = (Ok (probabilities', guesses'), w') ->
  exists guess g i,
    guesses' = guesses ++ [guess] /\
    item_row models item w !! i = Some (guess, g) /\
    forall j word v, (j < i)%nat ->
                     item_row models item w !! j = Some (word, v) ->
                     float_le g v = false.
Proof.
  intros Hnd Hrun.
  assert (NoDup (dict_keys (item_row models item w))) as Hrow.
  { rewrite (item_row_filter models item w Hnd).
    eapply (sublist_NoDup _
              (map fst (map (fun wm => (wm.1, calc_value (heap w) item wm.2))
                            models))).
    - by rewrite map_map.
    - apply (fmap_sublist fst), filter_sublist. }
  rewrite item_row_heap in Hrow |- *.
  unfold recognize_item in Hrun. destruct item as [X0 len0].
  unfold bind in Hrun.
  destruct (score_all_run models X0 len0 w) as (w1 & _ & Hall).
  rewrite Hall in Hrun. unfold lift, ret in Hrun.
  destruct (py_max _ _) as [guess|e] eqn:Hmax; [|done].
  injection Hrun as _ <- _.
  destruct (py_max_first _ guess Hrow Hmax) as (g & i & Hi & Hbefore).
  by exists guess, g, i.
Qed.


(** ** Further properties of [SelectorDIC] and [SelectorBIC] *)

Lemma first_max_spec (sc : Z -> pyfloat) (init : pyfloat) (cands : list Z) :
  match fold_left (keep_better float_gt sc) cands (None, init) with
  | (None, b_s) =>
      b_s = init /\ forall m, m ∈ cands -> float_gt (sc m) init = false
  | (Some n, b_s) =>
      b_s = sc n /\ float_gt (sc n) init = true /\
      exists k, cands !! k = Some n /\
        (forall i m, cands !! i = Some m -> (i < k)%nat ->
                     float_le (sc n) (sc m) = false) /\
        (forall m, m ∈ cands -> float_gt (sc m) (sc n) = false)
  end.
Proof.
  induction cands as [|x l IH] using rev_ind.
  - cbn. split; [done|]. by intros m ?%elem_of_nil.
  - rewrite fold_left_app. cbn [fold_left].
    destruct (fold_left (keep_better float_gt sc) l (None, init)) as [[n|] b_s].
    + destruct IH as (-> & Hinit & k & Hk & Hbefore & Hall).
      unfold keep_better. cbn [snd].
      destruct (float_gt (sc x) (sc n)) eqn:Hx.
      * split; [done|]. split.
        { unfold float_gt in *. by eapply float_lt_trans. }
        exists (length l). split; [by apply list_lookup_middle|]. split.
        -- intros i m Hi Hlt. rewrite lookup_app_l in Hi by done.
           eapply float_up_keep_gt; [|exact Hx].
           eapply Hall, list_elem_of_lookup_2, Hi.
        -- intros m [Hm| ->%list_elem_of_singleton]%elem_of_app.
           ++ unfold float_gt. apply float_le_lt.
              eapply float_up_keep_gt; [|exact Hx]. by apply Hall.
           ++ apply float_gt_irrefl.
      * split; [done|]. split; [done|].
        exists k. split; [by apply lookup_app_l_Some|]. split.
        -- intros i m Hi Hlt. apply (Hbefore i); [|done].
           rewrite lookup_app_l in Hi; [done|].
           apply lookup_lt_Some in Hk. lia.
        -- intros m [Hm| ->%list_elem_of_singleton]%elem_of_app;
             [by apply Hall|done].
    + destruct IH as (-> & Hall).
      unfold keep_better. cbn [snd].
      destruct (float_gt (sc x) init) eqn:Hx.
      * split; [done|]. split; [done|].
        exists (length l). split; [by apply list_lookup_middle|]. split.
        -- intros i m Hi Hlt. rewrite lookup_app_l in Hi by done.
           eapply float_up_keep_gt; [|exact Hx].
           eapply Hall, list_elem_of_lookup_2, Hi.
        -- intros m [Hm| ->%list_elem_of_singleton]%elem_of_app.
           ++ unfold float_gt. apply float_le_lt.
              eapply float_up_keep_gt; [|exact Hx]. by apply Hall.
           ++ apply float_gt_irrefl.
      * split; [done|].
        intros m [Hm| ->%list_elem_of_singleton]%elem_of_app;
          [by apply Hall|done].
Qed.

Lemma dic_others_scores (self : ModelSelector) (n : Z) (p : params)
    (ws : list string) (acc tmp_scores : list pyfloat) :
  dic_others self n p ws acc = Some tmp_scores ->
  exists vs,
    tmp_scores = acc ++ vs /\
    Forall2 (fun word v =>
               exists d, dict_get (hwords self) word = Some d /\
                         hmm_loglik n p d = Some v)
            (List.filter (fun word => negb (String.eqb word (this_word self))) ws)
            vs.
Proof.
  revert acc. induction ws as [|word rest IH]; intros acc Hrun.
  - injection Hrun as <-. exists []. split; [by rewrite app_nil_r|constructor].
  - cbn [dic_others List.filter] in *.
    destruct (negb (String.eqb word (this_word self))).
    + destruct (dict_get (hwords self) word) as [d|] eqn:Hd; [|done].
      destruct (hmm_loglik n p d) as [v|] eqn:Hv; [|done].
      destruct (IH _ Hrun) as (vs & -> & Hvs).
      exists (v :: vs). split; [by rewrite <- app_assoc|].
      constructor; [by exists d|done].
    + by apply IH.
Qed.

(** X7: [SelectorDIC.select] fits one model per candidate in ascending
    order of state count and scores candidate [n] with [dic_score self n].
    That score is the log-likelihood of the word's own data minus [np.mean]
    of the log-likelihoods of the data of the other words of the vocabulary,
    taken in the order of the vocabulary, when all of these are obtained; it
    is minus infinity when training, scoring or a lookup raises.  The method
    returns the model of the first candidate whose score is maximal, and
    [None] when no score exceeds minus infinity. *)
Theorem SelectorDIC_select_maximum (self : ModelSelector) (w : world) :
  let lo := min_n_components self in
  let hi := max_n_components self in
  exists b_model w',
    SelectorDIC_select self w = (Ok b_model, w') /\
    (forall n model w0, exists m w1,
        dic_try self n model w0 = (Ok (m, dic_score self n), w1)) /\
    (forall n,
        dic_score self n =
          match trained self n with
          | Some p =>
              match hmm_loglik n p (X self, lengths self),
                    dic_others self n p (dict_keys (words self)) [] with
              | Some logL, Some tmp_scores =>
                  float_sub logL (np_mean tmp_scores)
              | _, _ => NegInf
              end
          | None => NegInf
          end) /\
    (forall n p tmp_scores,
        dic_others self n p (dict_keys (words self)) [] = Some tmp_scores ->
        Forall2 (fun word v =>
                   exists d, dict_get (hwords self) word = Some d /\
                             hmm_loglik n p d = Some v)
                (List.filter
                   (fun word => negb (String.eqb word (this_word self)))
                   (dict_keys (words self)))
                tmp_scores) /\
    heap w' = heap w ++
      map (fun n => Hmm n (random_state self) (trained self n))
          (py_range lo (hi + 1)) /\
    match b_model with
    | None =>
        forall n, lo <= n <= hi -> float_gt (dic_score self n) NegInf = false
    | Some l =>
        exists n p,
          lo <= n <= hi /\
          trained self n = Some p /\
          heap w' !! l = Some (Hmm n (random_state self) (Some p)) /\
          float_gt (dic_score self n) NegInf = true /\
          (forall m, lo <= m <= hi ->
                     float_gt (dic_score self m) (dic_score self n) = false) /\
          (forall m, lo <= m < n ->
                     float_le (dic_score self n) (dic_score self m) = false)
    end.
Proof.
  intros lo hi. unfold SelectorDIC_select, bind. fold lo hi.
  destruct (select_loop self float_gt (dic_score self) (dic_try self)
              (dic_body self) (dic_body_eq self) (dic_try_run self)
              (fun n b => dic_fail_never_better self n b)
              (py_range lo (hi + 1)) w None NegInf None None)
    as (b_model & model & w' & Hloop & Hwin & Hheap); [done|].
  rewrite Hloop. exists b_model, w'. split; [done|]. split.
  { intros n model0 w0.
    destruct (dic_try_run self n model0 w0) as (w1 & -> & _). by eexists _, _. }
  split.
  { intros n. unfold dic_score, own_data.
    destruct (trained self n) as [p|]; [|done].
    destruct (hmm_loglik n p (X self, lengths self)) as [logL|]; [|done].
    by destruct (dic_others self n p (dict_keys (words self)) []). }
  split.
  { intros n p tmp_scores Hrun.
    by destruct (dic_others_scores self n p _ [] tmp_scores Hrun)
      as (vs & -> & Hvs). }
  split; [done|].
  pose proof (first_max_spec (dic_score self) NegInf (py_range lo (hi + 1)))
    as Hmax.
  destruct (fold_left (keep_better float_gt (dic_score self))
              (py_range lo (hi + 1)) (None, NegInf)) as [[n|] b_s];
    cbn [fst] in Hwin.
  - destruct Hwin as (l & p & -> & Ht & Hl).
    destruct Hmax as (_ & Hinit & k & Hk & Hbefore & Hall).
    apply lookup_py_range in Hk as [Hn Hhi].
    exists n, p. split; [lia|]. split; [done|]. split; [done|].
    split; [done|]. split.
    + intros m Hm. by apply Hall, elem_of_py_range.
    + intros m Hm. apply (Hbefore (Z.to_nat (m - lo))); [|lia].
      apply lookup_py_range. lia.
  - rewrite Hwin. destruct Hmax as [_ Hall].
    intros n Hn. by apply Hall, elem_of_py_range.
Qed.

Lemma dic_others_missing (self : ModelSelector) (n : Z) (p : params)
    (ws : list string) (tmp_scores : list pyfloat) (word : string) :
  word ∈ ws -> word <> this_word self -> dict_get (hwords self) word = None ->
  dic_others self n p ws tmp_scores = None.
Proof.
  intros Hin Hne Hmiss. revert tmp_scores.
  induction ws as [|x rest IH]; intros tmp_scores;
    [by apply elem_of_nil in Hin|].
  cbn [dic_others].
  apply elem_of_cons in Hin as [<-|Hin].
  - apply String.eqb_neq in Hne. by rewrite Hne, Hmiss.
  - destruct (negb (String.eqb x (this_word self))); [|by apply IH].
    destruct (dict_get (hwords self) x) as [d|]; [|done].
    destruct (hmm_loglik n p d); [by apply IH|done].
Qed.

(** X8: when some other word of the vocabulary has no entry in the
    concatenated data, the [KeyError] of the lookup is swallowed for every
    candidate and [SelectorDIC.select] returns [None]. *)
Theorem SelectorDIC_missing_data (self : ModelSelector) (w : world)
    (word : string) :
  word ∈ dict_keys (words self) ->
  word <> this_word self ->
  dict_get (hwords self) word = None ->
  (forall n, dic_score self n = NegInf) /\
  exists w', SelectorDIC_select self w = (Ok None, w').
Proof.
  intros Hin Hne Hmiss.
  assert (forall n, dic_score self n = NegInf) as Hscore.
  { intros n. unfold dic_score. destruct (trained self n) as [p|]; [|done].
    destruct (hmm_loglik n p (own_data self)); [|done].
    by rewrite (dic_others_missing self n p _ [] word Hin Hne Hmiss). }
  split; [exact Hscore|].
  destruct (SelectorDIC_select_run self w) as (b_model & w' & Hrun & Hwin).
  rewrite keep_better_never in Hwin.
  - cbn in Hwin. subst b_model. by exists w'.
  - intros n b _. rewrite Hscore. apply float_gt_NegInf_l.
Qed.

(** X9: when [N, features = self.X.shape] raises, because the data of the
    word have no [shape] attribute or a shape that is not a pair,
    [SelectorBIC.select] returns [None] without creating or fitting any
    model. *)
Theorem SelectorBIC_no_shape (self : ModelSelector) (w : world) (e : exn) :
  shape (X self) = Raise e ->
  SelectorBIC_select self w = (Ok None, w).
Proof.
  intros Hshape. unfold SelectorBIC_select, bind.
  by rewrite (bic_loop_no_shape self e _ _ _ _ _ Hshape).
Qed.

(** X10: a reference returned by a selection strategy always points to a
    fitted model: [recognize] can score it without meeting an unfitted
    object or a reference to nothing. *)
Theorem selected_model_is_fitted (self : ModelSelector) (w : world) :
  (forall l w', SelectorConstant_select self w = (Ok (Some l), w') ->
     exists n p, heap w' !! l = Some (Hmm n (random_state self) (Some p))) /\
  (forall l w', SelectorBIC_select self w = (Ok (Some l), w') ->
     exists n p, heap w' !! l = Some (Hmm n (random_state self) (Some p))) /\
  (forall l w', SelectorDIC_select self w = (Ok (Some l), w') ->
     exists n p, heap w' !! l = Some (Hmm n (random_state self) (Some p))) /\
  (forall l w', SelectorCV_select self w = (Ok (Some l), w') ->
     exists n p, heap w' !! l = Some (Hmm n (random_state self) (Some p))).
Proof.
  split; [|split; [|split]]; intros l w' Hsel.
  - unfold SelectorConstant_select in Hsel. rewrite base_model_run in Hsel.
    destruct (trained self (n_constant self)) as [p|]; [|done].
    injection Hsel as <- <-. exists (n_constant self), p. apply lookup_fresh.
  - destruct (SelectorBIC_select_run self w)
      as (b_model & w1 & who & Hrun & Hwin & _).
    rewrite Hsel in Hrun. injection Hrun as <- <-.
    destruct who as [n|]; [|done].
    destruct Hwin as (l' & p & [= <-] & _ & Hl). by exists n, p.
  - destruct (SelectorDIC_select_run self w) as (b_model & w1 & Hrun & Hwin).
    rewrite Hsel in Hrun. injection Hrun as <- <-.
    destruct (fold_left _ _ _).1 as [n|]; [|done].
    destruct Hwin as (l' & p & [= <-] & _ & Hl). by exists n, p.
  - destruct (SelectorCV_select_run self w)
      as (b_model & w1 & cs & Hrun & _ & Hres).
    rewrite Hsel in Hrun. injection Hrun as <- <-.
    destruct Hres as [[Hfresh Hl]|(l' & [= <-] & _ & Hfit)].
    + unfold fresh_model in Hfresh.
      destruct (trained self 3) as [p|]; [|done].
      injection Hfresh as ->. by exists 3, p.
    + destruct Hfit as (n & folds & p & tr & te & dtr & prev & _ & _ & _ & _
                        & _ & Hl & _).
      by exists n, p.
Qed.


(** ** Further properties of [SelectorCV] *)

Lemma cv_loop_skip (self : ModelSelector) (cands : list Z)
    (vars : pyfloat * option loc) (w : world) :
  (forall n w0, n ∈ cands -> exists e w1, cv_candidate self n w0 = (Raise e, w1)) ->
  exists w', for_each cands (cv_body self) vars w = (Ok vars, w').
Proof.
  revert vars w. induction cands as [|n rest IH]; intros [b_s b_model] w Hall.
  - by exists w.
  - destruct (Hall n w) as (e & w1 & Hraise); [left|].
    cbn [for_each]. unfold bind at 1. unfold cv_body at 1.
    unfold try_except, bind. rewrite Hraise. unfold ret at 1.
    apply IH. intros n' w0 Hn'. apply Hall. by right.
Qed.

Lemma cv_candidate_no_split (self : ModelSelector) (n : Z) (w : world) (e : exn) :
  KFold_split (length (sequences self)) = Raise e ->
  exists w1, cv_candidate self n w = (Raise e, w1).
Proof.
  intros Hsplit. unfold cv_candidate. unfold bind at 1.
  rewrite base_model_run. unfold bind, lift. rewrite Hsplit. by eexists.
Qed.

(** X11: when the word has fewer sequences than [KFold()] has folds, the
    split raises for every candidate, every candidate is skipped, and
    [SelectorCV.select] returns what [base_model(3)] returned. *)
Theorem SelectorCV_too_few_for_folds (self : ModelSelector) (w : world) :
  (length (sequences self) < n_splits)%nat ->
  exists w', SelectorCV_select self w = ((base_model self 3 w).1, w').
Proof.
  intros Hfew.
  assert (KFold_split (length (sequences self)) = Raise ValueError) as Hsplit.
  { unfold KFold_split. destruct (n_splits <=? 1)%nat; [done|].
    apply Nat.ltb_lt in Hfew. by rewrite Hfew. }
  unfold SelectorCV_select. unfold bind at 1.
  destruct (base_model self 3 w) as [[r|e] w0] eqn:Hbase.
  2:{ rewrite base_model_run in Hbase. done. }
  cbn [fst]. destruct (length (sequences self) <? 3)%nat; [by exists w0|].
  unfold bind.
  destruct (cv_loop_skip self
              (py_range (min_n_components self) (max_n_components self + 1))
              (NegInf, r) w0) as (w' & ->).
  { intros n w1 _.
    destruct (cv_candidate_no_split self n w1 ValueError Hsplit) as [w2 Hw2].
    by exists ValueError, w2. }
  by exists w'.
Qed.

(** X12: a candidate whose first fit, on the word's own data, raises is
    skipped by cross-validation without refitting on any fold: the loop
    variables are unchanged, the only library call is that first fit, and
    the object is left unfitted. *)
Theorem SelectorCV_untrained_candidate_skipped (self : ModelSelector) (n : Z)
    (b_s : pyfloat) (b_model : option loc) (w : world) :
  trained self n = None ->
  cv_body self n (b_s, b_model) w =
    (Ok (b_s, b_model),
     World (heap w ++ [Hmm n (random_state self) None])
           (calls w ++ [CallFit (length (heap w)) (own_data self)])).
Proof.
  intros Ht. unfold cv_body, try_except. unfold bind at 1.
  unfold cv_candidate. unfold bind at 1. rewrite base_model_run, Ht.
  unfold bind at 1. unfold lift at 1.
  destruct (KFold_split (length (sequences self))) as [folds|e]; [|done].
  unfold bind at 1.
  match goal with |- context [for_each folds _ [] ?w0] =>
    destruct (cv_folds_none self folds w0) as (r & -> & Hr)
  end.
  destruct Hr as [->|[e ->]]; [|done].
  unfold bind, lift. by rewrite statistics_mean_nil.
Qed.

(** ** The constructor *)

Lemma SelectorDIC_single_none (self : ModelSelector) (w : world) :
  dict_keys (words self) = [this_word self] ->
  exists w', SelectorDIC_select self w = (Ok None, w').
Proof.
  intros Hone.
  destruct (SelectorDIC_select_run self w) as (b_model & w' & Hrun & Hwin).
  rewrite keep_better_never in Hwin.
  - cbn in Hwin. subst b_model. by exists w'.
  - intros n b _. rewrite (dic_score_single_word self n Hone).
    destruct (trained self n) as [p|]; [|apply float_gt_NegInf_l].
    destruct (hmm_loglik n p (own_data self));
      [apply float_gt_NaN_l|apply float_gt_NegInf_l].
Qed.

(** X14: with a one-word vocabulary, constructing a selector raises
    [KeyError] when the word asked for is not that word or has no
    concatenated data; otherwise it succeeds, the selector holds the
    dictionaries, the word and the word's sequences and data, and
    [SelectorDIC.select] on it returns [None] in every world. *)
Theorem init_single_word_vocabulary (all_word_sequences : dict (list sequence))
    (all_word_Xlengths : dict Xlengths) (word k : string)
    (n_const min_n max_n rs : Z) (verb : bool) :
  dict_keys all_word_sequences = [k] ->
  (word <> k \/ dict_get all_word_Xlengths word = None ->
   ModelSelector_init all_word_sequences all_word_Xlengths word
                      n_const min_n max_n rs verb = Raise KeyError) /\
  (forall x lens,
      word = k -> dict_get all_word_Xlengths word = Some (x, lens) ->
      exists self,
        ModelSelector_init all_word_sequences all_word_Xlengths word
                           n_const min_n max_n rs verb = Ok self /\
        words self = all_word_sequences /\
        hwords self = all_word_Xlengths /\
        dict_get all_word_sequences word = Some (sequences self) /\
        X self = x /\ lengths self = lens /\
        this_word self = k /\
        forall w, exists w', SelectorDIC_select self w = (Ok None, w')).
Proof.
  intros Hone. unfold ModelSelector_init. split.
  - intros [Hne|Hmiss].
    + destruct (dict_get all_word_sequences word) as [seqs|] eqn:Hseqs; [|done].
      apply dict_get_keys in Hseqs. rewrite Hone in Hseqs.
      by apply list_elem_of_singleton in Hseqs.
    + rewrite Hmiss. by destruct (dict_get all_word_sequences word).
  - intros x lens -> HX.
    destruct (dict_keys_get all_word_sequences k) as [seqs Hseqs].
    { rewrite Hone. left. }
    rewrite Hseqs, HX. eexists. split; [reflexivity|]. cbn.
    split; [done|]. split; [done|]. split; [done|]. split; [done|].
    split; [done|]. split; [done|].
    intros w. by apply SelectorDIC_single_none.
Qed.


(** ** The candidate that cross-validation selects *)

Lemma cv_folds_pure (self : ModelSelector) (n : Z) (l : loc)
    (folds : list (list nat * list nat)) (scores : list pyfloat) (w : world)
    (cur : option params) :
  heap w !! l = Some (Hmm n (random_state self) cur) ->
  exists r w1,
    for_each folds (cv_fold self (Some l)) scores w = (r, w1) /\
    match cv_refit self n folds cur scores with
    | Some res => r = Ok res
    | None => exists e, r = Raise e
    end.
Proof.
  revert scores w cur.
  induction folds as [|[train_index test_index] rest IH]; intros scores w cur Hl.
  - by exists (Ok scores), w.
  - cbn [for_each cv_refit]. unfold bind at 1. unfold cv_fold at 1.
    unfold bind at 1. unfold lift at 1.
    destruct (combine_sequences train_index (sequences self))
      as [[X_train len_train]|e1].
    2:{ exists (Raise e1), w. split; [done|]. by exists e1. }
    unfold bind at 1. unfold lift at 1.
    destruct (combine_sequences test_index (sequences self))
      as [[X_test len_test]|e2].
    2:{ exists (Raise e2), w. split; [done|]. by exists e2. }
    unfold bind at 1. rewrite (fit_run l _ (X_train, len_train) w Hl).
    cbn [n_components seed fitted].
    destruct (hmm_em n (random_state self) cur (X_train, len_train)) as [p|].
    2:{ eexists (Raise LibraryError), _. split; [done|]. by eexists. }
    assert (l < length (heap w))%nat as Hlt by by eapply lookup_lt_Some.
    set (w2 := World (<[l:=Hmm n (random_state self) (Some p)]> (heap w))
                      (calls w ++ [CallFit l (X_train, len_train)])).
    assert (heap w2 !! l = Some (Hmm n (random_state self) (Some p))) as Hl2.
    { cbn. by apply list_lookup_insert_eq. }
    unfold bind at 1. unfold score at 1. rewrite Hl2. cbn [fitted n_components].
    destruct (hmm_loglik n p (X_test, len_test)) as [v|].
    2:{ eexists (Raise LibraryError), _. split; [done|]. by eexists. }
    unfold ret at 1.
    destruct (IH (scores ++ [v]) (log (CallScore l (X_test, len_test)) w2)
                 (Some p) Hl2) as (r & w1 & Hrun & Hr).
    exists r, w1. split; [exact Hrun|exact Hr].
Qed.

Lemma cv_candidate_pure (self : ModelSelector) (n : Z) (w : world) :
  exists r w1,
    cv_candidate self n w = (r, w1) /\
    match cv_mean self n with
    | Some s => r = Ok (Some (length (heap w)), s)
    | None => exists e, r = Raise e
    end.
Proof.
  unfold cv_candidate, cv_mean. unfold bind at 1. rewrite base_model_run.
  unfold bind at 1. unfold lift at 1.
  destruct (trained self n) as [p|] eqn:Ht.
  - destruct (KFold_split (length (sequences self))) as [folds|e].
    2:{ eexists (Raise e), _. split; [done|]. by eexists. }
    unfold bind at 1.
    match goal with |- context [for_each folds _ [] ?w0] =>
      destruct (cv_folds_pure self n (length (heap w)) folds [] w0 (Some p))
        as (r & w1 & Hrun & Hr)
    end.
    { apply lookup_fresh. }
    rewrite Hrun.
    destruct (cv_refit self n folds (Some p) []) as [scores|].
    + subst r. unfold bind, lift, ret.
      destruct (statistics_mean scores) as [s|e].
      * by eexists _, _.
      * eexists (Raise e), _. split; [done|]. by eexists.
    + destruct Hr as [e ->]. eexists (Raise e), _. split; [done|]. by eexists.
  - destruct (KFold_split (length (sequences self))) as [folds|e].
    2:{ eexists (Raise e), _. split; [done|]. by eexists. }
    unfold bind at 1.
    match goal with |- context [for_each folds _ [] ?w0] =>
      destruct (cv_folds_none self folds w0) as (r & -> & Hr)
    end.
    destruct Hr as [->|[e ->]].
    + unfold bind, lift. rewrite statistics_mean_nil.
      eexists (Raise StatisticsError), _. split; [done|]. by eexists.
    + eexists (Raise e), _. split; [done|]. by eexists.
Qed.

Lemma cv_winner_at_frame (self : ModelSelector) (h h' : list hmm)
    (who : option Z) (b_model b0 : option loc) :
  (forall l, (l < length h)%nat -> h' !! l = h !! l) ->
  cv_winner_at self h who b_model b0 -> cv_winner_at self h' who b_model b0.
Proof.
  intros Hold. destruct who as [n|]; [|done].
  intros (l & p & -> & Hl). exists l, p. split; [done|].
  rewrite Hold; [done|]. by eapply lookup_lt_Some.
Qed.

Lemma cv_loop_best (self : ModelSelector) (cands : list Z) (w : world)
    (who : option Z) (b_s : pyfloat) (b_model b0 : option loc) :
  cv_winner_at self (heap w) who b_model b0 ->
  exists b_model' w',
    for_each cands (cv_body self) (b_s, b_model) w
    = (Ok ((fold_left (keep_better float_gt (cv_score self)) cands
                      (who, b_s)).2, b_model'), w') /\
    cv_winner_at self (heap w')
      (fold_left (keep_better float_gt (cv_score self)) cands (who, b_s)).1
      b_model' b0 /\
    (length (heap w) <= length (heap w'))%nat /\
    (forall l, (l < length (heap w))%nat -> heap w' !! l = heap w !! l).
Proof.
  revert w who b_s b_model.
  induction cands as [|n rest IH]; intros w who b_s b_model Hwin.
  - by exists b_model, w.
  - cbn [for_each fold_left]. unfold bind at 1. unfold cv_body at 1.
    unfold try_except, bind.
    destruct (cv_candidate_run self n w)
      as (r & w1 & cs1 & Hrun & Hlen1 & Hold1 & _ & _ & Hr).
    destruct (cv_candidate_pure self n w) as (r' & w1' & Hrun' & Hmean).
    rewrite Hrun in Hrun'. injection Hrun' as <- <-.
    rewrite Hrun.
    assert (keep_better float_gt (cv_score self) (who, b_s) n
            = if float_gt (cv_score self n) b_s
              then (Some n, cv_score self n) else (who, b_s)) as -> by done.
    assert (cv_score self n
            = match cv_mean self n with Some s => s | None => NegInf end)
      as -> by done.
    assert (forall who' b_s' b_model',
               cv_winner_at self (heap w1) who' b_model' b0 ->
               exists b_model'' w',
                 for_each rest (cv_body self) (b_s', b_model') w1
                 = (Ok ((fold_left (keep_better float_gt (cv_score self)) rest
                                   (who', b_s')).2, b_model''), w') /\
                 cv_winner_at self (heap w')
                   (fold_left (keep_better float_gt (cv_score self)) rest
                              (who', b_s')).1 b_model'' b0 /\
                 (length (heap w) <= length (heap w'))%nat /\
                 (forall l, (l < length (heap w))%nat ->
                            heap w' !! l = heap w !! l)) as Hnext.
    { intros who' b_s' b_model' Hwin'.
      destruct (IH w1 who' b_s' b_model' Hwin')
        as (b_model'' & w' & Hloop & Hwin'' & Hlen & Hold).
      exists b_model'', w'. split; [exact Hloop|]. split; [exact Hwin''|].
      split; [lia|]. intros l Hl. rewrite Hold by lia. by apply Hold1. }
    destruct (cv_mean self n) as [s|].
    + subst r. destruct Hr as (_ & folds & p & tr & te & dtr & prev & _ & _ & _
                                & _ & Hl1 & _).
      unfold ret.
      destruct (float_gt s b_s).
      * apply Hnext. by exists (length (heap w)), p.
      * apply Hnext. by eapply cv_winner_at_frame.
    + destruct Hmean as [e ->]. rewrite float_gt_NegInf_l.
      apply Hnext. by eapply cv_winner_at_frame.
Qed.

Lemma cv_score_mean (self : ModelSelector) (n : Z) (s : pyfloat) :
  cv_mean self n = Some s -> cv_score self n = s.
Proof. unfold cv_score. by intros ->. Qed.

(** X15: with at least three sequences, [SelectorCV.select] evaluates the
    candidates in ascending order of state count.  Candidate [n] raises or
    gives [cv_mean self n], which is [statistics.mean] of the scores of the
    folds, each the score on the test part of a fold after a refit on its
    training part.  The method returns the model of the first candidate
    whose mean is maximal among the candidates that do not raise; when no
    mean exceeds minus infinity it returns what [base_model(3)] returned. *)
Theorem SelectorCV_select_maximum (self : ModelSelector) (w : world) :
  let lo := min_n_components self in
  let hi := max_n_components self in
  (3 <= length (sequences self))%nat ->
  (forall n w0,
      match cv_mean self n with
      | Some s => (cv_candidate self n w0).1 = Ok (Some (length (heap w0)), s)
      | None => exists e, (cv_candidate self n w0).1 = Raise e
      end) /\
  (forall n s,
      cv_mean self n = Some s ->
      exists p folds scores,
        trained self n = Some p /\
        KFold_split (length (sequences self)) = Ok folds /\
        cv_refit self n folds (Some p) [] = Some scores /\
        statistics_mean scores = Ok s) /\
  exists b_model w',
    SelectorCV_select self w = (Ok b_model, w') /\
    ((b_model = fresh_model self 3 (heap w) /\
      forall n s, lo <= n <= hi -> cv_mean self n = Some s ->
                  float_gt s NegInf = false) \/
     exists l n s p,
       b_model = Some l /\
       lo <= n <= hi /\
       cv_mean self n = Some s /\
       float_gt s NegInf = true /\
       heap w' !! l = Some (Hmm n (random_state self) (Some p)) /\
       (forall m s', lo <= m <= hi -> cv_mean self m = Some s' ->
                     float_gt s' s = false) /\
       (forall m s', lo <= m < n -> cv_mean self m = Some s' ->
                     float_le s s' = false)).
Proof.
  intros lo hi Hlen. split.
  { intros n w0. destruct (cv_candidate_pure self n w0) as (r & w1 & -> & Hr).
    exact Hr. }
  split.
  { intros n s. unfold cv_mean.
    destruct (trained self n) as [p|] eqn:Ht; [|done].
    destruct (KFold_split (length (sequences self))) as [folds|] eqn:Hsplit;
      [|done].
    destruct (cv_refit self n folds (Some p) []) as [scores|] eqn:Hrefit;
      [|done].
    destruct (statistics_mean scores) as [s'|] eqn:Hmean; [|done].
    intros [= ->]. by exists p, folds, scores. }
  unfold SelectorCV_select, bind. rewrite base_model_run. fold lo hi.
  apply Nat.ltb_ge in Hlen. rewrite Hlen.
  match goal with |- context [for_each _ _ (NegInf, ?b) ?w0] =>
    destruct (cv_loop_best self (py_range lo (hi + 1)) w0 None NegInf b b)
      as (b_model & w' & Hloop & Hwin & _ & _); [done|]
  end.
  rewrite Hloop. unfold ret. exists b_model, w'. split; [done|].
  pose proof (first_max_spec (cv_score self) NegInf (py_range lo (hi + 1)))
    as Hmax.
  destruct (fold_left (keep_better float_gt (cv_score self))
              (py_range lo (hi + 1)) (None, NegInf)) as [[n|] b_s];
    cbn [fst] in Hwin.
  - right. destruct Hwin as (l & p & -> & Hl).
    destruct Hmax as (_ & Hinit & k & Hk & Hbefore & Hall).
    apply lookup_py_range in Hk as [Hn Hhi].
    destruct (cv_mean self n) as [s|] eqn:Hmean.
    2:{ unfold cv_score in Hinit. by rewrite Hmean in Hinit. }
    rewrite (cv_score_mean self n s Hmean) in Hinit, Hbefore, Hall.
    exists l, n, s, p. split; [done|]. split; [lia|]. split; [done|].
    split; [done|]. split; [done|]. split.
    + intros m s' Hm Hs'. rewrite <- (cv_score_mean self m s' Hs').
      by apply Hall, elem_of_py_range.
    + intros m s' Hm Hs'. rewrite <- (cv_score_mean self m s' Hs').
      apply (Hbefore (Z.to_nat (m - lo))); [|lia].
      apply lookup_py_range. lia.
  - left. split; [exact Hwin|]. destruct Hmax as [_ Hall].
    intros n s Hn Hs. rewrite <- (cv_score_mean self n s Hs).
    by apply Hall, elem_of_py_range.
Qed.

End Facts.

(** * Concrete runs *)

Section Runs.

Import Toy.

Local Existing Instance lib3.

(** C1, counterexample: the model of "B" is [None], so scoring it raises;
    "B" is nevertheless in the row, with minus infinity.  When every word
    fails, the row holds all of them and a guess is still produced. *)
Lemma failed_word_kept_in_row :
  let item := (stacked [seqA], [2%nat]) in
  (score None item two_models).1 = Raise AttributeError /\
  (recognize [("A"%string, Some 0%nat); ("B"%string, None)] [item] two_models).1
  = Ok ([[("A"%string, Finite 5); ("B"%string, NegInf)]], ["A"%string]) /\
  (recognize [("A"%string, None); ("B"%string, None)] [item] two_models).1
  = Ok ([[("A"%string, NegInf); ("B"%string, NegInf)]], ["A"%string]).
Proof. repeat split; vm_compute; reflexivity. Qed.

(** C1, witness. *)
Lemma failed_score_recorded_witness :
  let models := [("A"%string, Some 0%nat); ("B"%string, None)] in
  let item := (stacked [seqA], [2%nat]) in
  NoDup (dict_keys models) /\
  ("B"%string, None) ∈ models /\
  (exists e w1, score None item two_models = (Raise e, w1)) /\
  exists guess w',
    recognize_item models item ([], []) two_models
    = (Ok ([] ++ [item_row models item two_models], [] ++ [guess]), w') /\
    dict_get (item_row models item two_models) "B" = Some NegInf /\
    best_in_row (item_row models item two_models) guess.
Proof.
  intros models item.
  assert (NoDup (dict_keys models)) as Hnd.
  { apply (bool_decide_unpack _). vm_compute. reflexivity. }
  assert (("B"%string, None) ∈ models) as Hin.
  { right. left. }
  assert (exists e w1, score None item two_models = (Raise e, w1)) as Hraise.
  { exists AttributeError, two_models. reflexivity. }
  split; [exact Hnd|]. split; [exact Hin|]. split; [exact Hraise|].
  exact (failed_score_recorded models item two_models "B" None [] []
           Hnd Hin Hraise).
Defined.

(** C3, counterexample: in a single-word vocabulary the 3-state candidate
    is trained and scored, and the score the search computes for it is NaN,
    not minus infinity. *)
Lemma single_word_score_is_nan :
  trained sel_single 3 = Some 5 /\
  hmm_loglik 3 5 (own_data sel_single) = Some (Finite 5) /\
  (dic_try sel_single 3 None (empty 3)).1 = Ok (Some (Some 0%nat), NaN) /\
  NaN <> NegInf.
Proof. repeat split; try (vm_compute; reflexivity). discriminate. Qed.

(** C3, witness. *)
Lemma SelectorDIC_single_word_witness :
  dict_keys (words sel_single) = [this_word sel_single] /\
  exists w', SelectorDIC_select sel_single (empty 3) = (Ok None, w').
Proof.
  split; [reflexivity|].
  exact (proj2 (SelectorDIC_single_word sel_single (empty 3) eq_refl)).
Defined.

(** C4, counterexample: the constant strategy asked for 15 states returns a
    15-state model although the range is 2 to 10, and cross-validation on a
    word with two sequences returns a 3-state model although the range is 4
    to 10. *)
Lemma state_count_outside_range :
  (exists l w' o,
      SelectorConstant_select sel_const15 (empty 3) = (Ok (Some l), w') /\
      heap w' !! l = Some o /\
      ~ (min_n_components sel_const15 <= n_components o
         <= max_n_components sel_const15)) /\
  (exists l w' o,
      SelectorCV_select sel_few (empty 3) = (Ok (Some l), w') /\
      heap w' !! l = Some o /\
      ~ (min_n_components sel_few <= n_components o
         <= max_n_components sel_few)).
Proof.
  split.
  - eexists 0%nat, _, _. split; [vm_compute; reflexivity|].
    split; [reflexivity|]. cbn. lia.
  - eexists 0%nat, _, _. split; [vm_compute; reflexivity|].
    split; [reflexivity|]. cbn. lia.
Qed.

(** C5, witness. *)
Lemma SelectorCV_few_sequences_witness :
  (length (sequences sel_few) < 3)%nat /\
  SelectorCV_select sel_few (empty 3) = base_model sel_few 3 (empty 3).
Proof.
  assert (length (sequences sel_few) < 3)%nat as Hfew by (cbn; lia).
  split; [exact Hfew|].
  exact (proj1 (SelectorCV_few_sequences sel_few (empty 3) Hfew)).
Defined.

(** C6, witness: with five folds and three sequences the split raises for
    every candidate, and the result is what [base_model 3] returned. *)
Lemma SelectorCV_failed_candidate_skipped_witness :
  (forall n w0,
      min_n_components sel_A <= n <= max_n_components sel_A ->
      exists e w1, cv_candidate (L:=lib 5) sel_A n w0 = (Raise e, w1)) /\
  exists w',
    SelectorCV_select (L:=lib 5) sel_A (empty 5)
    = ((base_model (L:=lib 5) sel_A 3 (empty 5)).1, w').
Proof.
  assert (forall n w0,
             min_n_components sel_A <= n <= max_n_components sel_A ->
             exists e w1, cv_candidate (L:=lib 5) sel_A n w0 = (Raise e, w1))
    as Hall.
  { intros n w0 _. unfold cv_candidate. unfold bind at 1.
    rewrite base_model_run. unfold bind, lift.
    assert (KFold_split (L:=lib 5) (length (sequences sel_A)) = Raise ValueError)
      as -> by reflexivity.
    by eexists _, _. }
  split; [exact Hall|].
  exact (proj2 (SelectorCV_failed_candidate_skipped (L:=lib 5) sel_A)
           (empty 5) Hall).
Defined.

(** C7: a model whose log-likelihood on the test item is exactly 0.0 is
    dropped from the row.  With a second word scoring -2 the guess is that
    second word; alone, the row is empty and [recognize] raises. *)
Lemma zero_score_dropped :
  let item := (stacked [[fr 0]], [1%nat]) in
  (score (Some 0%nat) item two_models).1 = Ok (Finite 0) /\
  (score (Some 1%nat) item two_models).1 = Ok (Finite (-2)) /\
  (recognize [("A"%string, Some 0%nat); ("B"%string, Some 1%nat)] [item]
             two_models).1
  = Ok ([[("B"%string, Finite (-2))]], ["B"%string]) /\
  (recognize [("A"%string, Some 0%nat)] [item] two_models).1
  = Raise ValueError.
Proof. repeat split; vm_compute; reflexivity. Qed.

(** C10, witness: with three folds on the three sequences of "A", the
    model returned is the object created for the 3-state candidate. *)
Lemma SelectorCV_returns_last_refit_witness :
  SelectorCV_select sel_A (empty 3)
  = (Ok (Some 2%nat), (SelectorCV_select sel_A (empty 3)).2) /\
  2%nat <> length (heap (empty 3)) /\
  exists cs,
    calls (SelectorCV_select sel_A (empty 3)).2 = calls (empty 3) ++ cs /\
    refit_per_fold sel_A (heap (SelectorCV_select sel_A (empty 3)).2) cs 2.
Proof.
  assert (SelectorCV_select sel_A (empty 3)
          = (Ok (Some 2%nat), (SelectorCV_select sel_A (empty 3)).2)) as Hsel.
  { vm_compute. reflexivity. }
  assert (2%nat <> length (heap (empty 3))) as Hne by (cbn; lia).
  split; [exact Hsel|]. split; [exact Hne|].
  exact (SelectorCV_returns_last_refit sel_A (empty 3) _ 2%nat Hsel Hne).
Defined.


(** X5, witness. *)
Lemma score_row_entries_witness :
  NoDup (dict_keys [("A"%string, Some 0%nat); ("B"%string, Some 1%nat)]) /\
  sublist
    (dict_keys (item_row [("A"%string, Some 0%nat); ("B"%string, Some 1%nat)]
                         (stacked [[fr 0]], [1%nat]) two_models))
    (dict_keys [("A"%string, Some 0%nat); ("B"%string, Some 1%nat)]).
Proof.
  assert (NoDup (dict_keys [("A"%string, Some 0%nat); ("B"%string, Some 1%nat)]))
    as Hnd.
  { apply (bool_decide_unpack _). vm_compute. reflexivity. }
  split; [exact Hnd|].
  exact (proj2 (score_row_entries
                  [("A"%string, Some 0%nat); ("B"%string, Some 1%nat)]
                  (stacked [[fr 0]], [1%nat]) two_models Hnd)).
Defined.

(** X6, witness. *)
Lemma guess_is_first_maximum_witness :
  let models := [("A"%string, Some 0%nat); ("B"%string, Some 1%nat)] in
  let item := (stacked [seqA], [2%nat]) in
  NoDup (dict_keys models) /\
  recognize_item models item ([], []) two_models
  = (Ok ([[("A"%string, Finite 5); ("B"%string, Finite 3)]], ["A"%string]),
     (recognize_item models item ([], []) two_models).2) /\
  exists guess g i,
    ["A"%string] = [] ++ [guess] /\
    item_row models item two_models !! i = Some (guess, g) /\
    forall j word v, (j < i)%nat ->
                     item_row models item two_models !! j = Some (word, v) ->
                     float_le g v = false.
Proof.
  intros models item.
  assert (NoDup (dict_keys models)) as Hnd.
  { apply (bool_decide_unpack _). vm_compute. reflexivity. }
  assert (recognize_item models item ([], []) two_models
          = (Ok ([[("A"%string, Finite 5); ("B"%string, Finite 3)]],
                 ["A"%string]),
             (recognize_item models item ([], []) two_models).2)) as Hrun.
  { vm_compute. reflexivity. }
  split; [exact Hnd|]. split; [exact Hrun|].
  exact (guess_is_first_maximum models item [] _ [] _ two_models _ Hnd Hrun).
Defined.

(** X8, witness. *)
Lemma SelectorDIC_missing_data_witness :
  "B"%string ∈ dict_keys (words sel_missing) /\
  "B"%string <> this_word sel_missing /\
  dict_get (hwords sel_missing) "B" = None /\
  exists w', SelectorDIC_select sel_missing (empty 3) = (Ok None, w').
Proof.
  assert ("B"%string ∈ dict_keys (words sel_missing)) as Hin by (right; left).
  assert ("B"%string <> this_word sel_missing) as Hne by discriminate.
  assert (dict_get (hwords sel_missing) "B" = None) as Hmiss by reflexivity.
  split; [exact Hin|]. split; [exact Hne|]. split; [exact Hmiss|].
  exact (proj2 (SelectorDIC_missing_data sel_missing (empty 3) "B"
                  Hin Hne Hmiss)).
Defined.

(** X9, witness: the frames of the word are in a plain list, which has no
    [shape]. *)
Lemma SelectorBIC_no_shape_witness :
  shape (X sel_list) = Raise AttributeError /\
  SelectorBIC_select sel_list (empty 3) = (Ok None, empty 3).
Proof.
  split; [reflexivity|].
  exact (SelectorBIC_no_shape sel_list (empty 3) AttributeError eq_refl).
Defined.

(** X11, witness: three sequences, five folds. *)
Lemma SelectorCV_too_few_for_folds_witness :
  (length (sequences sel_A) < @n_splits (lib 5))%nat /\
  exists w',
    SelectorCV_select (L:=lib 5) sel_A (empty 5)
    = ((base_model (L:=lib 5) sel_A 3 (empty 5)).1, w').
Proof.
  assert (length (sequences sel_A) < @n_splits (lib 5))%nat as Hfew
    by (cbn; lia).
  split; [exact Hfew|].
  exact (SelectorCV_too_few_for_folds (L:=lib 5) sel_A (empty 5) Hfew).
Defined.

(** X12, witness: the library refuses a model with no state. *)
Lemma SelectorCV_untrained_candidate_skipped_witness :
  trained sel_A 0 = None /\
  cv_body sel_A 0 (NegInf, None) (empty 3)
  = (Ok (NegInf, None),
     World (heap (empty 3) ++ [Hmm 0 (random_state sel_A) None])
           (calls (empty 3)
            ++ [CallFit (length (heap (empty 3))) (own_data sel_A)])).
Proof.
  split; [reflexivity|].
  exact (SelectorCV_untrained_candidate_skipped sel_A 0 NegInf None (empty 3)
           eq_refl).
Defined.

(** X14, witness: the vocabulary of the single word "A". *)
Lemma init_single_word_vocabulary_witness :
  dict_keys (words sel_single) = ["A"%string] /\
  exists self,
    ModelSelector_init (words sel_single) (hwords sel_single) "A"
                       3 2 5 14 false = Ok self /\
    this_word self = "A"%string /\
    forall w, exists w', SelectorDIC_select self w = (Ok None, w').
Proof.
  split; [reflexivity|].
  destruct (proj2 (init_single_word_vocabulary
                     (words sel_single) (hwords sel_single)
                     "A" "A" 3 2 5 14 false eq_refl)
                  (X sel_single) (lengths sel_single) eq_refl eq_refl)
    as (self & Hinit & _ & _ & _ & _ & _ & Hword & Hsel).
  by exists self.
Defined.

(** X15, witness: the word "A" has three sequences, and the selection
    over its candidates returns a model. *)
Lemma SelectorCV_select_maximum_witness :
  (3 <= length (sequences sel_A))%nat /\
  exists b_model w',
    SelectorCV_select sel_A (empty 3) = (Ok b_model, w') /\
    ((b_model = fresh_model sel_A 3 (heap (empty 3)) /\
      forall n s,
        min_n_components sel_A <= n <= max_n_components sel_A ->
        cv_mean sel_A n = Some s -> float_gt s NegInf = false) \/
     exists l n s p,
       b_model = Some l /\
       min_n_components sel_A <= n <= max_n_components sel_A /\
       cv_mean sel_A n = Some s /\
       float_gt s NegInf = true /\
       heap w' !! l = Some (Hmm n (random_state sel_A) (Some p)) /\
       (forall m s',
           min_n_components sel_A <= m <= max_n_components sel_A ->
           cv_mean sel_A m = Some s' -> float_gt s' s = false) /\
       (forall m s', min_n_components sel_A <= m < n ->
                     cv_mean sel_A m = Some s' -> float_le s s' = false)).
Proof.
  assert (3 <= length (sequences sel_A))%nat as Hlen by (vm_compute; lia).
  split; [exact Hlen|].
  exact (proj2 (proj2 (SelectorCV_select_maximum sel_A (empty 3) Hlen))).
Defined.

End Runs.
